(** * adb_auto_demo: a shallow embedding of [ADB] and [NodeChecker]

    The Python module [src/adb_auto_demo.py] wraps a uiautomator2 device
    session.  Every method is embedded as a computation in a small
    state-and-exception monad over a [world] (the device, the two files the
    module overwrites and the trace of effects).  The external libraries
    (lxml's XPath evaluation, OpenCV's template matching) are taken as
    parameters of a Section; the Python built-ins the code relies on
    ([str.split], [str.replace], [int], [in], list indexing, text-mode file
    I/O, [base64.b64encode]) are written out.

    Text is modelled on the code points U+0000..U+00FF: a Python [str] is a
    Rocq [string] whose characters are code points. *)

From Stdlib Require Import ZArith List String Ascii Bool Lia QArith.
Import ListNotations.

Local Open Scope string_scope.
Local Open Scope Z_scope.

(** ** Python string built-ins *)

Module PyStr.

(** [s.split(sep)] for a non-empty separator: occurrences are found left to
    right and do not overlap.  [skip] counts the characters of a separator
    that has just been recognised and remain to be dropped. *)
Fixpoint split_go (sep s cur : string) (skip : nat) : list string :=
  match s with
  | EmptyString => [cur]
  | String c s' =>
      match skip with
      | S k => split_go sep s' cur k
      | O =>
          if prefix sep s
          then cur :: split_go sep s' EmptyString (String.length sep - 1)
          else split_go sep s' (cur ++ String c EmptyString) 0
      end
  end.

Definition split (sep s : string) : list string := split_go sep s "" 0.

(** [s.replace(old, new)] for a non-empty [old]. *)
Fixpoint replace_go (old new s : string) (skip : nat) : string :=
  match s with
  | EmptyString => EmptyString
  | String c s' =>
      match skip with
      | S k => replace_go old new s' k
      | O =>
          if prefix old s
          then new ++ replace_go old new s' (String.length old - 1)
          else String c (replace_go old new s' 0)
      end
  end.

Definition replace (old new s : string) : string := replace_go old new s 0.

(** [needle in hay] on strings. *)
Fixpoint contains (needle hay : string) : bool :=
  prefix needle hay ||
  match hay with
  | EmptyString => false
  | String _ hay' => contains needle hay'
  end.

(** The characters [int] skips around a numeral (CPython 3.11, code points
    below U+0100): the ASCII white space, NEL and NBSP. *)
Definition is_space (c : ascii) : bool :=
  existsb (N.eqb (N_of_ascii c)) [9; 10; 11; 12; 13; 32; 133; 160]%N.

Definition digit_of (c : ascii) : option Z :=
  let n := Z.of_N (N_of_ascii c) in
  if (48 <=? n) && (n <=? 57) then Some (n - 48) else None.

Fixpoint lstrip (s : string) : string :=
  match s with
  | String c s' => if is_space c then lstrip s' else s
  | EmptyString => EmptyString
  end.

Fixpoint all_space (s : string) : bool :=
  match s with
  | String c s' => is_space c && all_space s'
  | EmptyString => true
  end.

(** The digits of a base-10 literal: single underscores may separate digits,
    white space may follow the last digit.  [seen] records that the previous
    character was a digit. *)
Fixpoint int_digits (s : string) (acc : Z) (seen : bool) : option Z :=
  match s with
  | EmptyString => if seen then Some acc else None
  | String c s' =>
      match digit_of c with
      | Some d => int_digits s' (10 * acc + d) true
      | None =>
          if Ascii.eqb c "_" then
            if seen then int_digits s' acc false else None
          else if is_space c && seen && all_space s' then Some acc
          else None
      end
  end.

(** [int(s)]; [None] stands for [ValueError].  (The interpreter's
    configurable cap on the number of digits, 4300 by default, is left
    out.) *)
Definition int (s : string) : option Z :=
  match lstrip s with
  | String "+" r => int_digits r 0 false
  | String "-" r => option_map Z.opp (int_digits r 0 false)
  | r => int_digits r 0 false
  end.

Definition digit_char (d : Z) : ascii := ascii_of_N (Z.to_N (48 + d)).

Fixpoint digits_of (fuel : nat) (n : Z) (acc : string) : string :=
  match fuel with
  | O => acc
  | S fuel' =>
      let acc' := String (digit_char (n mod 10)) acc in
      if n / 10 =? 0 then acc' else digits_of fuel' (n / 10) acc'
  end.

(** [str(z)]: the decimal numeral of an integer. *)
Definition of_int (z : Z) : string :=
  if z <? 0 then String "-" (digits_of (S (Z.to_nat (- z))) (- z) "")
  else digits_of (S (Z.to_nat z)) z "".

End PyStr.

(** ** Text-mode files, UTF-8 and Base64 *)

Definition LF : ascii := "010"%char.
Definition CR : ascii := "013"%char.

Inductive platform := Posix | Windows.

Definition linesep (os : platform) : string :=
  match os with
  | Posix => String LF EmptyString
  | Windows => String CR (String LF EmptyString)
  end.

Module TextIO.

(** [open(path, "w", encoding="utf-8").write(s)]: with the default
    [newline=None] every LF written becomes [os.linesep]. *)
Fixpoint write_newlines (os : platform) (s : string) : string :=
  match s with
  | EmptyString => EmptyString
  | String c s' =>
      if Ascii.eqb c LF then linesep os ++ write_newlines os s'
      else String c (write_newlines os s')
  end.

(** [open(path, "r", encoding="utf-8").read()]: with the default
    [newline=None] (universal newlines) CR LF and a lone CR are both
    returned as LF. *)
Fixpoint read_newlines (s : string) : string :=
  match s with
  | EmptyString => EmptyString
  | String c s' =>
      if Ascii.eqb c CR then
        String LF
          match s' with
          | String c' s'' =>
              if Ascii.eqb c' LF then read_newlines s'' else read_newlines s'
          | EmptyString => EmptyString
          end
      else String c (read_newlines s')
  end.

(** [posixpath.join(a, b)]. *)
Definition path_join (a b : string) : string :=
  if prefix "/" b then b
  else if (String.length a =? 0)%nat then b
  else if String.eqb (substring (String.length a - 1) 1 a) "/" then a ++ b
  else a ++ "/" ++ b.

End TextIO.

Module Codec.

(** [s.encode("utf-8")] on code points below U+0100, as byte values. *)
Definition utf8_char (c : ascii) : list Z :=
  let n := Z.of_N (N_of_ascii c) in
  if n <? 128 then [n] else [192 + n / 64; 128 + n mod 64].

Fixpoint utf8 (s : string) : list Z :=
  match s with
  | EmptyString => []
  | String c s' => utf8_char c ++ utf8 s'
  end.

Definition alphabet : string :=
  "ABCDEFGHIJKLMNOPQRSTUVWXYZabcdefghijklmnopqrstuvwxyz0123456789+/".

Definition sextet (i : Z) : ascii :=
  match get (Z.to_nat i) alphabet with
  | Some c => c
  | None => "="%char
  end.

(** [base64.b64encode(bs).decode("utf-8")]. *)
Fixpoint b64encode (bs : list Z) : string :=
  match bs with
  | [] => EmptyString
  | [a] =>
      String (sextet (a / 4)) (String (sextet (a mod 4 * 16)) "==")
  | [a; b] =>
      String (sextet (a / 4))
        (String (sextet (a mod 4 * 16 + b / 16))
           (String (sextet (b mod 16 * 4)) "="))
  | a :: b :: c :: rest =>
      String (sextet (a / 4))
        (String (sextet (a mod 4 * 16 + b / 16))
           (String (sextet (b mod 16 * 4 + c / 64))
              (String (sextet (c mod 64)) (b64encode rest))))
  end.

End Codec.

(** ** Python values, exceptions and sequences *)

(** The dynamically typed values that cross the methods: keyword arguments
    ([str], [int], [bool]), the tuple of ints or [False] of image lookup, the
    [None] of a method that falls off its end, XPath scalars. *)
Inductive pyval :=
  | VNone
  | VBool (b : bool)
  | VInt (z : Z)
  | VFloat (q : Q)
  | VStr (s : string)
  | VTuple (zs : list Z).

Definition truthy (v : pyval) : bool :=
  match v with
  | VNone => false
  | VBool b => b
  | VInt z => negb (z =? 0)
  | VFloat q => negb (Qeq_bool q 0)
  | VStr s => negb (String.eqb s "")
  | VTuple zs => match zs with [] => false | _ => true end
  end.

Inductive exn :=
  | KeyError | ValueError | IndexError | TypeError | AttributeError
  | OSError
  | XMLSyntaxError | XPathEvalError
  | Cv2Error.

Inductive result (A : Type) :=
  | Ok (a : A)
  | Raise (e : exn).
Arguments Ok {A} a.
Arguments Raise {A} e.

(** [l[i]] with Python's negative indices. *)
Definition py_index {A} (l : list A) (i : Z) : result A :=
  let n := Z.of_nat (List.length l) in
  let j := if i <? 0 then i + n else i in
  if (0 <=? j) && (j <? n)
  then match nth_error l (Z.to_nat j) with
       | Some a => Ok a
       | None => Raise IndexError
       end
  else Raise IndexError.

(** An [int] where Python wants one ([bool] is a subclass of [int]). *)
Definition as_int (v : pyval) : result Z :=
  match v with
  | VInt z => Ok z
  | VBool b => Ok (if b then 1 else 0)
  | _ => Raise TypeError
  end.

(** [v < n] for an integer [n]: numbers compare, anything else raises. *)
Definition py_lt_int (v : pyval) (n : Z) : result bool :=
  match v with
  | VInt z => Ok (z <? n)
  | VBool b => Ok ((if b then 1 else 0) <? n)
  | VFloat q => Ok (negb (Qle_bool (inject_Z n) q))
  | _ => Raise TypeError
  end.

(** [d[k]] and [d.get(k, default)] on an insertion-ordered dictionary. *)
Fixpoint dict_find {V} (k : string) (d : list (string * V)) : option V :=
  match d with
  | [] => None
  | (k', v) :: d' => if String.eqb k k' then Some v else dict_find k d'
  end.

Definition dict_get {V} (d : list (string * V)) (k : string) (default : V) : V :=
  match dict_find k d with
  | Some v => v
  | None => default
  end.

(** ** What lxml hands back *)

(** An item of an XPath node-set: an element with its attributes, or a text
    or attribute-value result (a [str] subclass, which has no [attrib]). *)
Inductive xitem :=
  | XElement (attrib : list (string * string))
  | XText (s : string).

(** The value of [tree.xpath(expr)]: a list of items, or a scalar
    ([bool], [float] or [str]). *)
Inductive xvalue :=
  | XItems (items : list xitem)
  | XScalar (v : pyval).

(** [for x in v]. *)
Definition xiter (v : xvalue) : result (list xitem) :=
  match v with
  | XItems items => Ok items
  | XScalar (VStr s) =>
      Ok (map (fun c => XText (String c EmptyString)) (list_ascii_of_string s))
  | XScalar _ => Raise TypeError
  end.

(** [bool(v)]. *)
Definition xtruthy (v : xvalue) : bool :=
  match v with
  | XItems items => match items with [] => false | _ => true end
  | XScalar s => truthy s
  end.

(** [v[index]]. *)
Definition xgetitem (v : xvalue) (index : pyval) : result xitem :=
  match v with
  | XItems items =>
      match as_int index with
      | Ok i => py_index items i
      | Raise e => Raise e
      end
  | XScalar (VStr s) =>
      match as_int index with
      | Ok i => py_index (map (fun c => XText (String c EmptyString))
                            (list_ascii_of_string s)) i
      | Raise e => Raise e
      end
  | XScalar _ => Raise TypeError
  end.

(** ** Bounds parsing

    The comprehension and the generator of [find_xml] and
    [get_coordinates_xml], which are the same text in both. *)

(** [bounds.attrib["bounds"].split("][")[0].replace("[", "").split(",")] *)
Definition bounds_fields (b : xitem) : result (list string) :=
  match b with
  | XText _ => Raise AttributeError
  | XElement attrib =>
      match dict_find "bounds" attrib with
      | None => Raise KeyError
      | Some s =>
          match PyStr.split "][" s with
          | first :: _ => Ok (PyStr.split "," (PyStr.replace "[" "" first))
          | [] => Raise IndexError
          end
      end
  end.

(** A list comprehension or generator whose body may raise: elements are
    evaluated in order and the first exception ends it. *)
Fixpoint map_result {A B} (f : A -> result B) (l : list A) : result (list B) :=
  match l with
  | [] => Ok []
  | a :: l' =>
      match f a with
      | Raise e => Raise e
      | Ok b =>
          match map_result f l' with
          | Raise e => Raise e
          | Ok bs => Ok (b :: bs)
          end
      end
  end.

(** [tuple(map(int, coord))] *)
Definition int_tuple (coord : list string) : result (list Z) :=
  map_result (fun s => match PyStr.int s with
                       | Some z => Ok z
                       | None => Raise ValueError
                       end) coord.

(** The two statements together: first the whole comprehension, then the
    conversion of every field list. *)
Definition parse_bounds (items : list xitem) : result (list (list Z)) :=
  match map_result bounds_fields items with
  | Raise e => Raise e
  | Ok coordinates_xml => map_result int_tuple coordinates_xml
  end.

(** ** The world: device, files and trace *)

(** A BGR image as OpenCV reads it: rows of pixels. *)
Definition image := list (list (list Z)).

Definition shape0 (img : image) : Z := Z.of_nat (List.length img).
Definition shape1 (img : image) : Z := Z.of_nat (List.length (hd [] img)).

(** What the module does to the outside, in order. *)
Inductive event :=
  | EShell (command : string)      (* device.shell(command) *)
  | EDump                          (* device.dump_hierarchy(...) *)
  | EScreenshot (path : string)    (* device.screenshot(path) *)
  | ESleep (seconds : Q).          (* time.sleep(seconds) *)

(** The device shows [hierarchy k] at the [k]-th dump and [screen k] at the
    [k]-th screenshot taken since the session started.  A text file holds
    what was written after newline translation (encoding to UTF-8 and
    decoding back are inverse and left implicit); an image file holds the
    image. *)
Record world := mkWorld {
  hierarchy : nat -> string;
  dumps_taken : nat;
  screen : nat -> image;
  shots_taken : nat;
  text_files : string -> option string;
  image_files : string -> option image;
  trace : list event
}.

Definition M (A : Type) : Type := world -> result A * world.

Definition ret {A} (a : A) : M A := fun w => (Ok a, w).

Definition raise {A} (e : exn) : M A := fun w => (Raise e, w).

Definition bind {A B} (m : M A) (k : A -> M B) : M B :=
  fun w =>
    match m w with
    | (Ok a, w') => k a w'
    | (Raise e, w') => (Raise e, w')
    end.

Definition lift {A} (r : result A) : M A := fun w => (r, w).

(** [try: m  except: h] with a bare [except]. *)
Definition try_except {A} (m : M A) (h : M A) : M A :=
  fun w =>
    match m w with
    | (Ok a, w') => (Ok a, w')
    | (Raise _, w') => h w'
    end.

Declare Scope py_scope.
Delimit Scope py_scope with py.
Notation "x <- m ;; k" := (bind m (fun x => k))
  (at level 61, m at next level, right associativity) : py_scope.
Notation "m ;;; k" := (bind m (fun _ => k))
  (at level 61, right associativity) : py_scope.
Local Open Scope py_scope.

Definition emit (e : event) : M unit :=
  fun w =>
    (Ok tt,
     mkWorld (hierarchy w) (dumps_taken w) (screen w) (shots_taken w)
             (text_files w) (image_files w) (trace w ++ [e])).

Definition sleep (seconds : Q) : M unit := emit (ESleep seconds).

(** [for _ in range(n): body], where [body] yields [Some r] when it executes
    [return r] and [None] when it runs to its end. *)
Fixpoint for_range {A} (n : nat) (body : M (option A)) : M (option A) :=
  match n with
  | O => ret None
  | S n' =>
      r <- body ;;
      match r with
      | Some a => ret (Some a)
      | None => for_range n' body
      end
  end.

(** [for x in xs: body(x)], with the same convention. *)
Fixpoint for_each {A B} (xs : list A) (body : A -> M (option B)) : M (option B) :=
  match xs with
  | [] => ret None
  | x :: xs' =>
      r <- body x ;;
      match r with
      | Some b => ret (Some b)
      | None => for_each xs' body
      end
  end.

(** [range(v)] for a dynamically typed bound. *)
Definition range_len (v : pyval) : M nat :=
  n <- lift (as_int v) ;; ret (Z.to_nat n).

(** ** The selector side of the device

    [check_text] and the [click_*] methods only talk to the selector
    interface of the device ([d(text=...)], [d(resourceId=...)],
    [d.xpath(...)]), sleep and print; they have a state and a log of their
    own. *)

Inductive selector :=
  | ByText (text : string)
  | ByXPath (xpath : string)
  | ByResource (resource_id : string)
  | ByResourceText (resource_id text : string).

Inductive ui_exn := UiObjectNotFoundError | XPathElementNotFoundError.

Inductive ui_event :=
  | UExists (sel : selector)              (* sel.exists *)
  | UClick (sel : selector) (ok : bool)   (* sel.click(), and whether it clicked *)
  | USleep (seconds : Q)                  (* time.sleep(seconds) *)
  | UPrintError (e : ui_exn).             (* print(f"Error clicking resource: {e}") *)

Record ui_state := mkUi {
  calls : nat;
  ui_trace : list ui_event
}.

Definition U (A : Type) : Type := ui_state -> (A + ui_exn) * ui_state.

Definition u_ret {A} (a : A) : U A := fun s => (inl a, s).

Definition u_bind {A B} (m : U A) (k : A -> U B) : U B :=
  fun s =>
    match m s with
    | (inl a, s') => k a s'
    | (inr e, s') => (inr e, s')
    end.

(** [try: m  except Exception as e: h(e)] *)
Definition u_try {A} (m : U A) (h : ui_exn -> U A) : U A :=
  fun s =>
    match m s with
    | (inl a, s') => (inl a, s')
    | (inr e, s') => h e s'
    end.

Definition u_emit (e : ui_event) : U unit :=
  fun s => (inl tt, mkUi (calls s) (ui_trace s ++ [e])).

Fixpoint u_for_range {A} (n : nat) (body : U (option A)) : U (option A) :=
  match n with
  | O => u_ret None
  | S n' =>
      u_bind body (fun r =>
        match r with
        | Some a => u_ret (Some a)
        | None => u_for_range n' body
        end)
  end.

(** ** Vocabulary of the statements *)

(** [c] does not occur in [s]. *)
Fixpoint no_char (c : ascii) (s : string) : bool :=
  match s with
  | EmptyString => true
  | String x s' => negb (Ascii.eqb x c) && no_char c s'
  end.

(** The characters of a decimal numeral as [str] prints it. *)
Definition numeral_char (c : ascii) : bool :=
  Ascii.eqb c "-" || match PyStr.digit_of c with Some _ => true | None => false end.

Fixpoint numeral (s : string) : bool :=
  match s with
  | EmptyString => true
  | String x s' => numeral_char x && numeral s'
  end.

(** The attribute value ["[a,b][c,d]"]. *)
Definition bounds_string (a b c d : Z) : string :=
  "[" ++ PyStr.of_int a ++ "," ++ PyStr.of_int b ++ "]["
      ++ PyStr.of_int c ++ "," ++ PyStr.of_int d ++ "]".

(** The tuple [(a, b)] as the lookups return it. *)
Definition pair_tuple (ab : Z * Z) : list Z := [fst ab; snd ab].

(** An element whose [bounds] attribute reads ["[a,b][c,d]"]. *)
Definition well_bounded (item : xitem) (ab : Z * Z) : Prop :=
  exists attrib c d,
    item = XElement attrib /\
    dict_find "bounds" attrib = Some (bounds_string (fst ab) (snd ab) c d).

Definition is_element (item : xitem) : Prop :=
  exists attrib, item = XElement attrib.

(** An element with a [bounds] attribute, and one without. *)
Definition bounded (item : xitem) : Prop :=
  exists attrib s, item = XElement attrib /\ dict_find "bounds" attrib = Some s.

Definition unbounded (item : xitem) : Prop :=
  exists attrib, item = XElement attrib /\ dict_find "bounds" attrib = None.

(** An element whose first pair has a field that [int] rejects. *)
Definition ill_bounded (item : xitem) : Prop :=
  exists fields field,
    bounds_fields item = Ok fields /\ In field fields /\ PyStr.int field = None.

(** The entry of a matrix at row [y], column [x]. *)
Definition entry {A} (m : list (list A)) (y x : nat) : option A :=
  match nth_error m y with
  | Some row => nth_error row x
  | None => None
  end.

(** Row-major order on locations. *)
Definition earlier (y' x' y x : nat) : Prop :=
  (y' < y)%nat \/ (y' = y /\ (x' < x)%nat).

(** [(y, x)] is the first location, in row-major order, whose score reaches
    the threshold; no location reaches it. *)
Definition first_reaching (res : list (list Q)) (threshold : Q) (y x : nat)
  : Prop :=
  (exists s, entry res y x = Some s /\ (threshold <= s)%Q) /\
  (forall y' x' s', earlier y' x' y x -> entry res y' x' = Some s' ->
                    ~ (threshold <= s')%Q).

Definition none_reaching (res : list (list Q)) (threshold : Q) : Prop :=
  forall y x s, entry res y x = Some s -> ~ (threshold <= s)%Q.

(** A computation is quiet when it sends no shell command: whatever it
    returns or raises, it only appends events other than [EShell] to the
    trace. *)
Definition is_shell (e : event) : bool :=
  match e with
  | EShell _ => true
  | _ => false
  end.

Definition extends_quietly (w w' : world) : Prop :=
  exists evs,
    trace w' = (trace w ++ evs)%list /\
    forallb (fun e => negb (is_shell e)) evs = true.

Definition quiet {A} (m : M A) : Prop :=
  forall w, extends_quietly w (snd (m w)).

(** An element whose [bounds] attribute starts with ["[a,b]["], whatever
    follows. *)
Definition first_pair_bounded (item : xitem) (ab : Z * Z) : Prop :=
  exists attrib rest,
    item = XElement attrib /\
    dict_find "bounds" attrib =
      Some ("[" ++ PyStr.of_int (fst ab) ++ "," ++ PyStr.of_int (snd ab)
                ++ "][" ++ rest)%string.

(** The tuple [t] is what the lookups compute from the item. *)
Definition tuple_of (item : xitem) (t : list Z) : Prop :=
  exists fields, bounds_fields item = Ok fields /\ int_tuple fields = Ok t.

(** The characters a Base64 payload is made of. *)
Definition is_b64_char (c : ascii) : bool :=
  existsb (Ascii.eqb c) (list_ascii_of_string Codec.alphabet) || Ascii.eqb c "=".

Fixpoint all_chars (P : ascii -> bool) (s : string) : bool :=
  match s with
  | EmptyString => true
  | String c s' => P c && all_chars P s'
  end.

(** The way back from a payload to the text, as the receiving keyboard has
    to compute it: Base64 decoding, then UTF-8 decoding (of code points
    below U+0100).  They serve to state that a payload determines its
    text. *)
Fixpoint index_of (c : ascii) (s : string) (i : Z) : Z :=
  match s with
  | EmptyString => i
  | String x s' => if Ascii.eqb x c then i else index_of c s' (i + 1)
  end.

Definition unsextet (c : ascii) : Z := index_of c Codec.alphabet 0.

Fixpoint b64decode (s : string) : list Z :=
  match s with
  | String c0 (String c1 (String c2 (String c3 rest))) =>
      let a := unsextet c0 * 4 + unsextet c1 / 16 in
      let b := unsextet c1 mod 16 * 16 + unsextet c2 / 4 in
      let c := unsextet c2 mod 4 * 64 + unsextet c3 in
      if Ascii.eqb c2 "=" then [a]
      else if Ascii.eqb c3 "=" then [a; b]
      else a :: b :: c :: b64decode rest
  | _ => []
  end.

Fixpoint utf8_decode (bs : list Z) : string :=
  match bs with
  | [] => EmptyString
  | b :: rest =>
      if b <? 128 then String (ascii_of_N (Z.to_N b)) (utf8_decode rest)
      else
        match rest with
        | b2 :: rest' =>
            String (ascii_of_N (Z.to_N ((b - 192) * 64 + (b2 - 128))))
                   (utf8_decode rest')
        | [] => EmptyString
        end
  end.

Definition byte_range (b : Z) : Prop := 0 <= b < 256.

Definition broadcast_prefix : string :=
  "am broadcast -a ADB_INPUT_B64 --es msg ".

(** A computation dumps the hierarchy at most [k] times: whatever it
    returns or raises, the events it appends hold at most [k] dumps. *)
Definition count_dumps (evs : list event) : nat :=
  List.length (filter (fun e => match e with EDump => true | _ => false end) evs).

Definition dumps_at_most {A} (k : nat) (m : M A) : Prop :=
  forall w, exists evs,
    trace (snd (m w)) = (trace w ++ evs)%list /\ (count_dumps evs <= k)%nat.

(** ** A device for the examples

    Two screens: a loading screen for the first two dumps, then a dialog;
    and a table standing for lxml on those documents. *)

Definition demo_dir : string := "/home/user".

Definition loading_xml : string :=
  "<hierarchy rotation='0'><node text='Loading' bounds='[0,0][1080,200]'/></hierarchy>".

Definition dialog_xml : string :=
  "<hierarchy rotation='0'><node text='OK' bounds='[10,20][110,80]'/><node text='Cancel' bounds='[120,20][220,80]'/><node text='Logo' bounds='oops'/></hierarchy>".

Definition demo_hierarchy (k : nat) : string :=
  match k with
  | O | S O => loading_xml
  | _ => dialog_xml
  end.

Definition ok_node : xitem :=
  XElement [("text", "OK"); ("bounds", "[10,20][110,80]")].
Definition cancel_node : xitem :=
  XElement [("text", "Cancel"); ("bounds", "[120,20][220,80]")].
Definition logo_node : xitem :=
  XElement [("text", "Logo"); ("bounds", "oops")].
Definition root_node : xitem := XElement [("rotation", "0")].

Definition demo_xpath (bytes expr : string) : result xvalue :=
  let dialog := PyStr.contains "text='OK'" bytes in
  if String.eqb expr "//node[@text='OK']" then
    Ok (XItems (if dialog then [ok_node] else []))
  else if String.eqb expr "//node[@text='OK' or @text='Cancel']" then
    Ok (XItems (if dialog then [ok_node; cancel_node] else []))
  else if String.eqb expr "//node[@text='Logo']" then
    Ok (XItems (if dialog then [logo_node] else []))
  else if String.eqb expr "//hierarchy" then Ok (XItems [root_node])
  else if String.eqb expr "//node[" then Raise XPathEvalError
  else Ok (XItems []).

Definition demo_world : world :=
  mkWorld demo_hierarchy 0 (fun _ => []) 0 (fun _ => None) (fun _ => None) [].

(** The same device once the dialog is up. *)
Definition dialog_world : world :=
  mkWorld (fun _ => dialog_xml) 0 (fun _ => []) 0 (fun _ => None)
          (fun _ => None) [].

(** A reference image of two pixels, black then white; a screenshot that
    shows it twice, at columns 0 and 2; and one that shows it once, at
    column 1.  [demo_match] is the matrix of correlation coefficients of the
    reference on each of them (told apart by their width): 1 where the
    window is the reference, -1 where it is its negative. *)
Definition black : list Z := [0; 0; 0].
Definition white : list Z := [255; 255; 255].

Definition demo_reference : image := [[black; white]].
Definition demo_screenshot : image := [[black; white; black; white]].
Definition pasted_screenshot : image := [[white; black; white]].

Definition demo_match (img templ : image) : result (list (list Q)) :=
  if negb ((shape1 templ <=? shape1 img) && (shape0 templ <=? shape0 img))
  then Raise Cv2Error
  else if shape1 img =? 4 then Ok [[1; -1; 1]]%Q
  else Ok [[-1; 1]]%Q.

Definition image_world : world :=
  mkWorld (fun _ => dialog_xml) 0 (fun _ => demo_screenshot) 0
          (fun _ => None)
          (fun p => if String.eqb p "ok.png" then Some demo_reference else None)
          [].

Definition pasted_world : world :=
  mkWorld (fun _ => dialog_xml) 0 (fun _ => pasted_screenshot) 0
          (fun _ => None)
          (fun p => if String.eqb p "ok.png" then Some demo_reference else None)
          [].

(** A hierarchy whose text holds a carriage return. *)
Definition cr_world : world :=
  mkWorld (fun _ => String "a" (String CR "b")) 0 (fun _ => []) 0
          (fun _ => None) (fun _ => None) [].

(** An lxml table for an element whose bounds are cut short after the
    first corner. *)
Definition cut_node : xitem := XElement [("text", "Cut"); ("bounds", "[7,8][90")].

Definition cut_xpath (bytes expr : string) : result xvalue :=
  Ok (XItems [cut_node]).

(** A device for the selector methods: the text [OK] shows from the third
    call on, [//flash] is there at the first call only, [//ok] and the
    resource [com.app:id/ok] always, nothing else ever. *)
Definition demo_present (k : nat) (sel : selector) : bool :=
  match sel with
  | ByText t => String.eqb t "OK" && (2 <=? k)%nat
  | ByXPath x =>
      if String.eqb x "//flash" then (k =? 0)%nat else String.eqb x "//ok"
  | ByResource r => String.eqb r "com.app:id/ok"
  | ByResourceText _ _ => false
  end.

Definition ui_start : ui_state := mkUi 0 [].

(** ** The methods of [ADB] and [NodeChecker] *)

Section ADB.

(** The platform decides [os.linesep]; [current_dir] is [os.getcwd()] at
    import time. *)
Variable os : platform.
Variable current_dir : string.

(** [html.parse(path).xpath(expr)] as a function of the bytes of the file
    and of the expression: the value, or the exception lxml raises. *)
Variable lxml_xpath : string -> string -> result xvalue.

(** [cv2.matchTemplate(image, templ, method=cv2.TM_CCOEFF_NORMED)]: the
    matrix of scores (one row per vertical offset), or [cv2.error].  Scores
    are rationals: every finite float is one, and [>=] agrees. *)
Variable matchTemplate : image -> image -> result (list (list Q)).

(** [self.shell(command)]; no caller below uses what the device answers. *)
Definition shell (command : string) : M unit := emit (EShell command).

(** [os.path.join(current_dir, "resources", name)].  Directories are not
    modelled: [os.makedirs("resources", exist_ok=True)] leaves no trace, and
    a path is the key of a file. *)
Definition resource_path (name : string) : string :=
  TextIO.path_join (TextIO.path_join current_dir "resources") name.

Definition screen_capture : M string :=
  fun w =>
    let path := resource_path "screenshot_window_0.png" in
    (Ok path,
     mkWorld (hierarchy w) (dumps_taken w) (screen w) (S (shots_taken w))
             (text_files w)
             (fun p => if String.eqb p path
                       then Some (screen w (shots_taken w))
                       else image_files w p)
             (trace w ++ [EScreenshot path])).

(** [cv2.imread(path)]: [None] when the file cannot be read. *)
Definition imread (path : string) : M (option image) :=
  fun w => (Ok (image_files w path), w).

Definition cv_matchTemplate (img templ : option image) : M (list (list Q)) :=
  match img, templ with
  | Some i, Some t => lift (matchTemplate i t)
  | _, _ => raise Cv2Error
  end.

(** [np.where(mask)] on a matrix: the row and column indices of the true
    entries, in row-major order. *)
Fixpoint row_hits (row : list bool) (x : Z) : list Z :=
  match row with
  | [] => []
  | b :: row' => (if b then [x] else []) ++ row_hits row' (x + 1)
  end.

Fixpoint where_go (mask : list (list bool)) (y : Z) : list (Z * Z) :=
  match mask with
  | [] => []
  | row :: mask' => map (fun x => (y, x)) (row_hits row 0) ++ where_go mask' (y + 1)
  end.

Definition np_where (mask : list (list bool)) : list Z * list Z :=
  let hits := where_go mask 0 in (map fst hits, map snd hits).

(** [result >= threshold], element by element. *)
Definition ge_mask (res : list (list Q)) (threshold : Q) : list (list bool) :=
  map (map (fun s => Qle_bool threshold s)) res.

Definition size {A} (l : list A) : Z := Z.of_nat (List.length l).

Definition get_coordinates_image (target_image_path : string) (threshold : Q)
  : M pyval :=
  target_image <- imread target_image_path ;;
  shot <- screen_capture ;;
  template_image <- imread shot ;;
  res <- cv_matchTemplate template_image target_image ;;
  let '(y_coords, x_coords) := np_where (ge_mask res threshold) in
  if (size x_coords >? 0) && (size y_coords >? 0) then
    x0 <- lift (py_index x_coords 0) ;;
    y0 <- lift (py_index y_coords 0) ;;
    match target_image with
    | Some t => ret (VTuple [x0 + shape1 t / 2; y0 + shape0 t / 2])
    | None => raise AttributeError
    end
  else ret (VBool false).

Definition click (x y : Z) : M unit :=
  shell ("input tap " ++ PyStr.of_int x ++ " " ++ PyStr.of_int y).

(** [self.click( *coords )] *)
Definition click_star (coords : pyval) : M unit :=
  match coords with
  | VTuple [x; y] => click x y
  | _ => raise TypeError
  end.

Definition click_coordinates_image (image_path : string) : M pyval :=
  coords <- get_coordinates_image image_path 1 ;;
  if truthy coords then click_star coords ;;; ret VNone
  else ret (VBool false).

Definition dump_xml : M string :=
  fun w =>
    let xml_file_path := resource_path "window_dump_0.xml" in
    let xml_content := hierarchy w (dumps_taken w) in
    (Ok xml_file_path,
     mkWorld (hierarchy w) (S (dumps_taken w)) (screen w) (shots_taken w)
             (fun p => if String.eqb p xml_file_path
                       then Some (TextIO.write_newlines os xml_content)
                       else text_files w p)
             (image_files w)
             (trace w ++ [EDump])).

(** [tree.xpath(element)]: lxml rejects an expression that is not a string. *)
Definition xpath_on (bytes : string) (element : pyval) : result xvalue :=
  match element with
  | VStr e => lxml_xpath bytes e
  | _ => Raise TypeError
  end.

(** [html.parse(path_file).xpath(element)] *)
Definition html_xpath (path_file : string) (element : pyval) : M xvalue :=
  fun w =>
    match text_files w path_file with
    | None => (Raise OSError, w)
    | Some bytes => (xpath_on bytes element, w)
    end.

Definition find_xml (element : pyval) (path_file : string) (index : pyval)
  : M (list (list Z) * option xitem) :=
  r <- try_except (v <- html_xpath path_file element ;; ret (Some v))
                  (ret None) ;;
  match r with
  | None => ret ([], None)
  | Some etree_xml =>
      items <- lift (xiter etree_xml) ;;
      coords <- lift (parse_bounds items) ;;
      if xtruthy etree_xml
      then node <- lift (xgetitem etree_xml index) ;; ret (coords, Some node)
      else ret (coords, None)
  end.

Definition get_coordinates_xml (element : pyval) : M (list (list Z)) :=
  windows_xml_path <- dump_xml ;;
  etree_xml <- html_xpath windows_xml_path element ;;
  items <- lift (xiter etree_xml) ;;
  lift (parse_bounds items).

(** [open(path, "r", encoding="utf-8").read()] *)
Definition read_text (path : string) : M string :=
  fun w =>
    match text_files w path with
    | None => (Raise OSError, w)
    | Some bytes => (Ok (TextIO.read_newlines bytes), w)
    end.

Definition or_false (r : option bool) : bool :=
  match r with Some b => b | None => false end.

(** The body of the loop of [check_text_xml]. *)
Definition check_text_xml_attempt (text : string) : M (option bool) :=
  windows_xml_path <- dump_xml ;;
  xml_content <- read_text windows_xml_path ;;
  if PyStr.contains text xml_content then ret (Some true)
  else sleep (1 # 2) ;;; ret None.

Definition check_text_xml (text : string) (retries : Z) : M bool :=
  r <- for_range (Z.to_nat retries) (check_text_xml_attempt text) ;;
  ret (or_false r).

(** The body of the loop of [click_coordinates_xml]. *)
Definition click_coordinates_xml_attempt (element : string) (index : Z)
  : M (option bool) :=
  part <- get_coordinates_xml (VStr element) ;;
  match part with
  | _ :: _ =>
      coords <- lift (py_index part index) ;;
      x <- lift (py_index coords 0) ;;
      y <- lift (py_index coords 1) ;;
      click x y ;;; ret (Some true)
  | [] => sleep (1 # 2) ;;; ret None
  end.

Definition click_coordinates_xml (element : string) (index : Z) : M bool :=
  r <- for_range 15 (click_coordinates_xml_attempt element index) ;;
  ret (or_false r).

Definition send_text (text : string) (use_vn_keyboard slow_typing : bool)
  : M unit :=
  if use_vn_keyboard then
    shell "ime set com.android.adbkeyboard/.AdbIME" ;;;
    sleep 1 ;;;
    if slow_typing then
      for_each (list_ascii_of_string text)
        (fun char =>
           let char_b64 := Codec.b64encode (Codec.utf8 (String char "")) in
           shell ("am broadcast -a ADB_INPUT_B64 --es msg " ++ char_b64) ;;;
           ret (@None unit)) ;;; ret tt
    else
      let text_b64 := Codec.b64encode (Codec.utf8 text) in
      shell ("am broadcast -a ADB_INPUT_B64 --es msg " ++ text_b64)
  else
    shell "ime set com.android.inputmethod.pinyin/.InputService" ;;;
    sleep 1 ;;;
    if slow_typing then
      for_each (list_ascii_of_string text)
        (fun char =>
           shell ("input text '" ++ String char "'") ;;; ret (@None unit)) ;;;
      ret tt
    else shell ("input text '" ++ text ++ "'").

(** The body of the inner loop of [is_element_checked], over
    [kwargs.items()]. *)
Definition is_element_checked_item (xml_content : string) (index : pyval)
           (item : string * pyval) : M (option string) :=
  let '(element_name, expected_value) := item in
  found <- find_xml expected_value xml_content index ;;
  match fst found with
  | _ :: _ => ret (Some element_name)
  | [] => ret None
  end.

(** The body of its outer loop. *)
Definition is_element_checked_attempt (kwargs : list (string * pyval))
           (index : pyval) : M (option string) :=
  xml_content <- dump_xml ;;
  hit <- for_each kwargs (is_element_checked_item xml_content index) ;;
  match hit with
  | Some element_name => ret (Some element_name)
  | None => sleep (1 # 2) ;;; ret None
  end.

Definition is_element_checked (kwargs : list (string * pyval)) : M string :=
  let max_attempts := dict_get kwargs "repeat" (VInt 20) in
  let index := dict_get kwargs "index" (VInt 0) in
  n <- range_len max_attempts ;;
  r <- for_range n (is_element_checked_attempt kwargs index) ;;
  ret (match r with Some name => name | None => "notElement" end).

(** The body of the loop of [check_xml_element]. *)
Definition check_xml_element_attempt (element_name index should_click : pyval)
  : M (option bool) :=
  coordinates <- get_coordinates_xml element_name ;;
  match coordinates with
  | _ :: _ =>
      below <- lift (py_lt_int index (size coordinates)) ;;
      if below then
        i <- lift (as_int index) ;;
        xy <- lift (py_index coordinates i) ;;
        match xy with
        | [x; y] =>
            (if truthy should_click then click x y else ret tt) ;;;
            ret (Some true)
        | _ => raise ValueError
        end
      else sleep (1 # 2) ;;; ret None
  | [] => sleep (1 # 2) ;;; ret None
  end.

Definition check_xml_element (kwargs : list (string * pyval)) : M bool :=
  let element_name := dict_get kwargs "element" (VStr "") in
  let max_attempts := dict_get kwargs "repeat" (VInt 20) in
  let index := dict_get kwargs "index" (VInt 0) in
  let should_click := dict_get kwargs "click" (VBool true) in
  n <- range_len max_attempts ;;
  r <- for_range n (check_xml_element_attempt element_name index should_click) ;;
  ret (or_false r).


(** ** The other methods that act through the shell and the dump *)

Definition open_link (url : string) (package_name : option string) : M unit :=
  let command := "am start -a android.intent.action.VIEW -d " ++ url in
  match package_name with
  | Some p =>
      if negb (String.eqb p "") then shell (command ++ " " ++ p)
      else shell command
  | None => shell command
  end.

Definition permissions : list string :=
  ["android.permission.WRITE_EXTERNAL_STORAGE";
   "android.permission.READ_EXTERNAL_STORAGE";
   "android.permission.READ_PHONE_STATE"; "android.permission.CALL_PHONE";
   "android.permission.ACCESS_FINE_LOCATION";
   "android.permission.ACCESS_COARSE_LOCATION";
   "android.permission.CAMERA"; "android.permission.READ_CONTACTS";
   "android.permission.WRITE_CONTACTS"; "android.permission.READ_CALENDAR";
   "android.permission.WRITE_CALENDAR"; "android.permission.RECORD_AUDIO"].

Definition grant_permissions (package_name : string) : M unit :=
  for_each permissions
    (fun permission =>
       shell ("pm grant " ++ package_name ++ " " ++ permission) ;;;
       ret (@None unit)) ;;;
  ret tt.

(** The body of the loop of [scrollable]; the taps are its inner loop. *)
Definition scrollable_attempt (element : string) (times index : Z)
  : M (option bool) :=
  part <- get_coordinates_xml (VStr element) ;;
  match part with
  | _ :: _ =>
      coords <- lift (py_index part index) ;;
      for_range (Z.to_nat times)
        (x <- lift (py_index coords 0) ;;
         y <- lift (py_index coords 1) ;;
         click x y ;;; ret (@None unit)) ;;;
      ret (Some true)
  | [] => sleep (1 # 2) ;;; ret None
  end.

Definition scrollable (element : string) (times index : Z) : M bool :=
  r <- for_range 15 (scrollable_attempt element times index) ;;
  ret (or_false r).

(** ** The methods that act through UI selectors

    The device answers its [k]-th selector call according to [present k]:
    [exists] returns it, and [click] succeeds when it is true and raises
    the selector's not-found error otherwise. *)

Variable present : nat -> selector -> bool.

Definition not_found (sel : selector) : ui_exn :=
  match sel with
  | ByXPath _ => XPathElementNotFoundError
  | _ => UiObjectNotFoundError
  end.

Definition device_exists (sel : selector) : U bool :=
  fun s =>
    (inl (present (calls s) sel),
     mkUi (S (calls s)) (ui_trace s ++ [UExists sel])).

Definition device_click (sel : selector) : U unit :=
  fun s =>
    let ok := present (calls s) sel in
    (if ok then inl tt else inr (not_found sel),
     mkUi (S (calls s)) (ui_trace s ++ [UClick sel ok])).

(** The body of the loop of [check_text]. *)
Definition check_text_attempt (text : string) : U (option bool) :=
  u_bind (device_exists (ByText text)) (fun found =>
    if found then u_ret (Some true)
    else u_bind (u_emit (USleep (1 # 2))) (fun _ => u_ret None)).

Definition check_text (text : string) (retries : Z) : U bool :=
  u_bind (u_for_range (Z.to_nat retries) (check_text_attempt text))
         (fun r => u_ret (or_false r)).

Definition click_text (text : string) : U unit :=
  device_click (ByText text).

Definition click_xpath (xpath : string) : U unit :=
  u_bind (device_exists (ByXPath xpath)) (fun found =>
    if found then device_click (ByXPath xpath) else u_ret tt).

Definition click_resource (resource_id : string) : U unit :=
  u_try (device_click (ByResource resource_id))
        (fun e => u_emit (UPrintError e)).

Definition click_resource_text (resource_id text : string) : U unit :=
  u_try (device_click (ByResourceText resource_id text))
        (fun e => u_emit (UPrintError e)).

(** The state after an attempt of [check_text] that found nothing. *)
Definition ui_missed (text : string) (s : ui_state) : ui_state :=
  mkUi (S (calls s))
       (ui_trace s ++ [UExists (ByText text); USleep (1 # 2)]).

Definition ui_misses (text : string) (k : nat) : list ui_event :=
  List.concat (repeat [UExists (ByText text); USleep (1 # 2)] k).

Definition is_click (e : ui_event) : bool :=
  match e with
  | UClick _ _ => true
  | _ => false
  end.

(** ** Worlds along a polling loop *)

(** The bytes the next [dump_xml] writes, the world it leaves, and the world
    after an attempt that dumped, found nothing and slept. *)
Definition dump_bytes (w : world) : string :=
  TextIO.write_newlines os (hierarchy w (dumps_taken w)).

Definition dumped (w : world) : world := snd (dump_xml w).

Definition missed (w : world) : world := snd (sleep (1 # 2) (dumped w)).

(** Items, then coordinates: what both lookups compute from an XPath value. *)
Definition coords_of (v : xvalue) : result (list (list Z)) :=
  match xiter v with
  | Ok items => parse_bounds items
  | Raise e => Raise e
  end.

(** What the device shows at the [j]-th dump from now, as written to the
    file; what [check_text_xml] reads back from it; what the coordinate
    lookup computes from it; and what [find_xml] returns on it. *)
Definition bytes_at (w : world) (j : nat) : string :=
  TextIO.write_newlines os (hierarchy w (dumps_taken w + j)%nat).

Definition text_at (w : world) (j : nat) : string :=
  TextIO.read_newlines (bytes_at w j).

Definition lookup_at (w : world) (element : pyval) (j : nat)
  : result (list (list Z)) :=
  match xpath_on (bytes_at w j) element with
  | Ok v => coords_of v
  | Raise e => Raise e
  end.

Definition find_at (w : world) (element index : pyval) (j : nat)
  : result (list (list Z) * option xitem) :=
  match xpath_on (bytes_at w j) element with
  | Raise _ => Ok ([], None)
  | Ok v =>
      match coords_of v with
      | Raise e => Raise e
      | Ok coords =>
          if xtruthy v
          then match xgetitem v index with
               | Ok node => Ok (coords, Some node)
               | Raise e => Raise e
               end
          else Ok (coords, None)
      end
  end.

(** The shell command of a tap. *)
Definition tap (x y : Z) : event :=
  EShell ("input tap " ++ PyStr.of_int x ++ " " ++ PyStr.of_int y).

(** [k] attempts that dump, find nothing and sleep half a second. *)
Definition misses (k : nat) : list event :=
  List.concat (repeat [EDump; ESleep (1 # 2)] k).

(** The command that selects the input method, and the one that carries
    the text [s] to it. *)
Definition ime_command (use_vn_keyboard : bool) : string :=
  if use_vn_keyboard then "ime set com.android.adbkeyboard/.AdbIME"
  else "ime set com.android.inputmethod.pinyin/.InputService".

Definition text_command (use_vn_keyboard : bool) (s : string) : string :=
  if use_vn_keyboard
  then "am broadcast -a ADB_INPUT_B64 --es msg " ++ Codec.b64encode (Codec.utf8 s)
  else "input text '" ++ s ++ "'".

Definition text_commands (use_vn_keyboard slow_typing : bool) (text : string)
  : list string :=
  if slow_typing
  then map (fun c => text_command use_vn_keyboard (String c ""))
           (list_ascii_of_string text)
  else [text_command use_vn_keyboard text].

(** A named condition of [is_element_checked] finds coordinates at the
    [j]-th dump from now, or finds none. *)
Definition matches_at (w : world) (index : pyval) (j : nat)
           (cond : string * pyval) : Prop :=
  exists c cs node, find_at w (snd cond) index j = Ok (c :: cs, node).

Definition no_match_at (w : world) (index : pyval) (j : nat)
           (cond : string * pyval) : Prop :=
  exists node, find_at w (snd cond) index j = Ok ([], node).

(** The value [get_coordinates_image] builds from the matrix of scores:
    the centre of the reference image placed at the first hit, or [False]. *)
Definition located (res : list (list Q)) (threshold : Q) (target : image)
  : pyval :=
  match where_go (ge_mask res threshold) 0 with
  | [] => VBool false
  | (y, x) :: _ => VTuple [x + shape1 target / 2; y + shape0 target / 2]
  end.

(** Both lookups, on a document for which lxml returns [items], end in [r]:
    [get_coordinates_xml] on the document it dumps, [find_xml] on the file
    it is given (with the node its index selects, or [None] when there is no
    item). *)
Definition lookups_yield (items : list xitem) (r : result (list (list Z)))
  : Prop :=
  (forall element w,
      xpath_on (dump_bytes w) element = Ok (XItems items) ->
      get_coordinates_xml element w = (r, dumped w)) /\
  (forall element path_file index w bytes,
      text_files w path_file = Some bytes ->
      xpath_on bytes element = Ok (XItems items) ->
      match r with
      | Raise e => find_xml element path_file index w = (Raise e, w)
      | Ok coords =>
          (items = [] ->
           find_xml element path_file index w = (Ok (coords, None), w)) /\
          (forall node,
              xgetitem (XItems items) index = Ok node ->
              find_xml element path_file index w = (Ok (coords, Some node), w))
      end).

(** ** The string built-ins behave as Python's *)

Lemma prefix_app (s r : string) : prefix s (s ++ r) = true.
Proof.
  induction s as [|c s IH]; simpl.
  - now destruct r.
  - destruct (ascii_dec c c) as [_|N]; [exact IH | now elim N].
Qed.

Lemma prefix_head_ne (c x : ascii) (p s : string) :
  Ascii.eqb x c = false -> prefix (String c p) (String x s) = false.
Proof.
  intros H; simpl.
  destruct (ascii_dec c x) as [E|_]; [|reflexivity].
  subst. now rewrite Ascii.eqb_refl in H.
Qed.

Lemma append_assoc (a b c : string) : ((a ++ b) ++ c = a ++ (b ++ c))%string.
Proof. induction a; simpl; congruence. Qed.

Lemma append_nil_r (a : string) : (a ++ "")%string = a.
Proof. induction a; simpl; congruence. Qed.

Lemma split_go_skip (sep p rest cur : string) :
  PyStr.split_go sep (p ++ rest) cur (String.length p) =
  PyStr.split_go sep rest cur 0.
Proof.
  induction p as [|c p IH]; simpl; [|exact IH].
  destruct rest; reflexivity.
Qed.

(** Up to the first separator, when the separator's first character does not
    occur before it. *)
Lemma split_go_sep (c0 : ascii) (sep' a rest cur : string) :
  no_char c0 a = true ->
  PyStr.split_go (String c0 sep') (a ++ String c0 sep' ++ rest) cur 0 =
  (cur ++ a)%string :: PyStr.split_go (String c0 sep') rest "" 0.
Proof.
  revert cur; induction a as [|x a IH]; intros cur H.
  - cbn [append PyStr.split_go].
    change (String c0 (sep' ++ rest)) with (String c0 sep' ++ rest)%string.
    rewrite prefix_app, append_nil_r.
    cbn [String.length]. rewrite Nat.sub_succ, Nat.sub_0_r.
    now rewrite split_go_skip.
  - simpl in H. apply andb_prop in H as [Hx Ha].
    apply negb_true_iff in Hx.
    cbn [append PyStr.split_go].
    rewrite (prefix_head_ne _ _ _ _ Hx), (IH _ Ha).
    now rewrite append_assoc.
Qed.

Lemma split_go_nosep (c0 : ascii) (sep' a cur : string) :
  no_char c0 a = true ->
  PyStr.split_go (String c0 sep') a cur 0 = [(cur ++ a)%string].
Proof.
  revert cur; induction a as [|x a IH]; intros cur H.
  - simpl. now rewrite append_nil_r.
  - simpl in H. apply andb_prop in H as [Hx Ha].
    apply negb_true_iff in Hx.
    cbn [PyStr.split_go].
    rewrite (prefix_head_ne _ _ _ _ Hx), (IH _ Ha).
    now rewrite append_assoc.
Qed.

Lemma replace_go_nochar (c0 : ascii) (old' new s : string) :
  no_char c0 s = true ->
  PyStr.replace_go (String c0 old') new s 0 = s.
Proof.
  induction s as [|x s IH]; intros H; [reflexivity|].
  simpl in H. apply andb_prop in H as [Hx Hs].
  apply negb_true_iff in Hx.
  cbn [PyStr.replace_go].
  now rewrite (prefix_head_ne _ _ _ _ Hx), (IH Hs).
Qed.

Lemma no_char_app (c : ascii) (a b : string) :
  no_char c (a ++ b) = no_char c a && no_char c b.
Proof.
  induction a as [|x a IH]; simpl; [reflexivity|].
  now rewrite IH, andb_assoc.
Qed.

Lemma numeral_no_char (c : ascii) (s : string) :
  numeral_char c = false -> numeral s = true -> no_char c s = true.
Proof.
  intros Hc; induction s as [|x s IH]; simpl; intros H; [reflexivity|].
  apply andb_prop in H as [Hx Hs]. rewrite (IH Hs), andb_true_r.
  apply negb_true_iff. destruct (Ascii.eqb x c) eqn:E; [|reflexivity].
  apply Ascii.eqb_eq in E. congruence.
Qed.



(** ** [int] reads back what [str] prints *)

Lemma digit_cases (k : Z) :
  0 <= k <= 9 ->
  k = 0 \/ k = 1 \/ k = 2 \/ k = 3 \/ k = 4 \/
  k = 5 \/ k = 6 \/ k = 7 \/ k = 8 \/ k = 9.
Proof. lia. Qed.

Ltac each_digit H :=
  destruct (digit_cases _ H) as [->|[->|[->|[->|[->|[->|[->|[->|[->| ->]]]]]]]]].

Lemma digit_of_char (k : Z) :
  0 <= k <= 9 -> PyStr.digit_of (PyStr.digit_char k) = Some k.
Proof. intros H; each_digit H; reflexivity. Qed.

Lemma numeral_digit_char (k : Z) :
  0 <= k <= 9 -> numeral_char (PyStr.digit_char k) = true.
Proof. intros H; each_digit H; reflexivity. Qed.

Lemma int_digit_start (k : Z) (rest : string) :
  0 <= k <= 9 ->
  PyStr.int (String (PyStr.digit_char k) rest) =
  PyStr.int_digits (String (PyStr.digit_char k) rest) 0 false.
Proof. intros H; each_digit H; reflexivity. Qed.

Lemma mod10_digit (n : Z) : 0 <= n mod 10 <= 9.
Proof. pose proof (Z.mod_pos_bound n 10); lia. Qed.

Lemma digits_of_head (f : nat) (n : Z) (acc : string) :
  exists k rest,
    0 <= k <= 9 /\
    PyStr.digits_of (S f) n acc = String (PyStr.digit_char k) rest.
Proof.
  revert n acc; induction f as [|f IH]; intros n acc.
  - exists (n mod 10), acc. split; [apply mod10_digit|].
    simpl. now destruct (n / 10 =? 0).
  - cbn [PyStr.digits_of]. destruct (n / 10 =? 0).
    + exists (n mod 10), acc. split; [apply mod10_digit | reflexivity].
    + apply IH.
Qed.

Lemma numeral_digits_of (f : nat) (n : Z) (acc : string) :
  numeral acc = true -> numeral (PyStr.digits_of f n acc) = true.
Proof.
  revert n acc; induction f as [|f IH]; intros n acc H; [exact H|].
  cbn [PyStr.digits_of].
  assert (H' : numeral (String (PyStr.digit_char (n mod 10)) acc) = true).
  { simpl. now rewrite numeral_digit_char, H by apply mod10_digit. }
  destruct (n / 10 =? 0); [exact H' | now apply IH].
Qed.

Lemma numeral_of_int (z : Z) : numeral (PyStr.of_int z) = true.
Proof.
  unfold PyStr.of_int. destruct (z <? 0).
  - cbn [numeral]. rewrite numeral_digits_of by reflexivity. reflexivity.
  - now apply numeral_digits_of.
Qed.

Lemma digits_of_S (f : nat) (n : Z) (acc : string) :
  PyStr.digits_of (S f) n acc =
  if n / 10 =? 0 then String (PyStr.digit_char (n mod 10)) acc
  else PyStr.digits_of f (n / 10) (String (PyStr.digit_char (n mod 10)) acc).
Proof. reflexivity. Qed.

(** Reading the digits of [n] from an accumulator at zero leaves [n] in the
    accumulator. *)
Lemma int_digits_of (f : nat) (n : Z) (acc : string) (seen : bool) :
  0 <= n <= Z.of_nat f ->
  PyStr.int_digits (PyStr.digits_of (S f) n acc) 0 seen =
  PyStr.int_digits acc n true.
Proof.
  revert n acc seen; induction f as [|f IH]; intros n acc seen Hn.
  - assert (n = 0) by lia. subst. reflexivity.
  - rewrite digits_of_S.
    destruct (n / 10 =? 0) eqn:E.
    + apply Z.eqb_eq in E.
      assert (Hs : n mod 10 = n)
        by (pose proof (Z.div_mod n 10 ltac:(lia)); lia).
      cbn [PyStr.int_digits].
      rewrite digit_of_char by apply mod10_digit.
      f_equal. lia.
    + apply Z.eqb_neq in E.
      assert (0 <= n / 10) by (apply Z.div_pos; lia).
      assert (n / 10 <= Z.of_nat f).
      { assert (0 < n)
          by (destruct (Z.eq_dec n 0) as [->|]; [now elim E | lia]).
        assert (n / 10 < n) by (apply Z.div_lt; lia). lia. }
      rewrite IH by lia.
      cbn [PyStr.int_digits].
      rewrite digit_of_char by apply mod10_digit.
      f_equal. pose proof (Z.div_mod n 10 ltac:(lia)); lia.
Qed.

Lemma int_of_int (z : Z) : PyStr.int (PyStr.of_int z) = Some z.
Proof.
  unfold PyStr.of_int. destruct (z <? 0) eqn:E.
  - apply Z.ltb_lt in E.
    change (PyStr.int (String "-" ?s))
      with (option_map Z.opp (PyStr.int_digits s 0 false)).
    rewrite int_digits_of by lia. simpl. f_equal. lia.
  - apply Z.ltb_ge in E.
    destruct (digits_of_head (Z.to_nat z) z "") as (k & rest & Hk & Heq).
    rewrite Heq, int_digit_start by exact Hk. rewrite <- Heq.
    rewrite int_digits_of by lia. reflexivity.
Qed.

Lemma split_first_pair (x rest : string) :
  no_char "]" x = true ->
  PyStr.split "][" (x ++ "][" ++ rest) =
  x :: PyStr.split_go "][" rest "" 0.
Proof. intros H. unfold PyStr.split. now rewrite split_go_sep. Qed.

Lemma replace_open_bracket (s : string) :
  no_char "[" s = true -> PyStr.replace "[" "" (String "[" s) = s.
Proof.
  intros H. unfold PyStr.replace.
  change (PyStr.replace_go "[" "" (String "[" s) 0)
    with (if prefix "[" ("[" ++ s)
          then ("" ++ PyStr.replace_go "[" "" s 0)%string
          else String "[" (PyStr.replace_go "[" "" s 0)).
  rewrite prefix_app. now rewrite replace_go_nochar.
Qed.

Lemma split_comma (sa sb : string) :
  no_char "," sa = true -> no_char "," sb = true ->
  PyStr.split "," (sa ++ "," ++ sb) = [sa; sb].
Proof.
  intros Ha Hb. unfold PyStr.split.
  rewrite split_go_sep by exact Ha.
  now rewrite split_go_nosep.
Qed.

(** The first pair of ["[a,b][rest"] when [a] and [b] are numerals. *)
Lemma bounds_fields_numerals (attrib : list (string * string))
      (sa sb rest : string) :
  dict_find "bounds" attrib = Some ("[" ++ sa ++ "," ++ sb ++ "][" ++ rest)%string ->
  numeral sa = true -> numeral sb = true ->
  bounds_fields (XElement attrib) = Ok [sa; sb].
Proof.
  intros Hfind Ha Hb. unfold bounds_fields. rewrite Hfind.
  assert (Hbr : forall c, numeral_char c = false ->
                          no_char c (sa ++ "," ++ sb) = no_char c ",").
  { intros c Hc. rewrite !no_char_app.
    rewrite (numeral_no_char c sa Hc Ha), (numeral_no_char c sb Hc Hb).
    now rewrite andb_true_r. }
  replace ("[" ++ sa ++ "," ++ sb ++ "][" ++ rest)%string
    with (String "[" (sa ++ "," ++ sb) ++ "][" ++ rest)%string
    by (cbn [append]; now rewrite !append_assoc).
  rewrite split_first_pair.
  2:{ cbn [no_char]. now rewrite Hbr. }
  cbv beta iota.
  rewrite replace_open_bracket by (now rewrite Hbr).
  rewrite split_comma by (now apply numeral_no_char).
  reflexivity.
Qed.

(** ** Running the lookups *)

Lemma dumped_file (w : world) :
  text_files (dumped w) (resource_path "window_dump_0.xml") = Some (dump_bytes w).
Proof. unfold dumped, dump_xml; simpl. now rewrite String.eqb_refl. Qed.

Lemma dumped_trace (w : world) : trace (dumped w) = (trace w ++ [EDump])%list.
Proof. reflexivity. Qed.

Lemma dumped_count (w : world) : dumps_taken (dumped w) = S (dumps_taken w).
Proof. reflexivity. Qed.

Lemma dumped_hierarchy (w : world) : hierarchy (dumped w) = hierarchy w.
Proof. reflexivity. Qed.

Lemma get_coordinates_xml_run (element : pyval) (w : world) :
  get_coordinates_xml element w =
  (match xpath_on (dump_bytes w) element with
   | Ok v => coords_of v
   | Raise e => Raise e
   end, dumped w).
Proof.
  unfold get_coordinates_xml, bind.
  change (dump_xml w) with (Ok (resource_path "window_dump_0.xml"), dumped w).
  cbv beta iota. unfold html_xpath. rewrite dumped_file.
  destruct (xpath_on (dump_bytes w) element) as [v|e]; [|reflexivity].
  unfold coords_of, lift.
  destruct (xiter v) as [items|e]; reflexivity.
Qed.

Lemma find_xml_run (element : pyval) (path_file : string) (index : pyval)
      (w : world) (bytes : string) :
  text_files w path_file = Some bytes ->
  find_xml element path_file index w =
  (match xpath_on bytes element with
   | Raise _ => Ok ([], None)
   | Ok v =>
       match coords_of v with
       | Raise e => Raise e
       | Ok coords =>
           if xtruthy v
           then match xgetitem v index with
                | Ok node => Ok (coords, Some node)
                | Raise e => Raise e
                end
           else Ok (coords, None)
       end
   end, w).
Proof.
  intros Hf. unfold find_xml, bind, try_except, html_xpath. rewrite Hf.
  destruct (xpath_on bytes element) as [v|e]; [|reflexivity].
  cbn [ret]. unfold coords_of, lift.
  destruct (xiter v) as [items|e]; [|reflexivity].
  destruct (parse_bounds items) as [coords|e]; [|reflexivity].
  destruct (xtruthy v); [|reflexivity].
  destruct (xgetitem v index); reflexivity.
Qed.

Lemma find_xml_no_file (element : pyval) (path_file : string) (index : pyval)
      (w : world) :
  text_files w path_file = None ->
  find_xml element path_file index w = (Ok ([], None), w).
Proof.
  intros Hf. unfold find_xml, bind, try_except, html_xpath. now rewrite Hf.
Qed.

(** ** Comprehensions that may raise *)

Lemma map_result_ok {A B} (f : A -> result B) (l : list A) (bs : list B) :
  Forall2 (fun a b => f a = Ok b) l bs -> map_result f l = Ok bs.
Proof.
  induction 1 as [|a b l bs Hab _ IH]; [reflexivity|].
  simpl. now rewrite Hab, IH.
Qed.

Lemma map_result_raise {A B} (f : A -> result B) (e : exn) (l : list A) :
  Forall (fun a => (exists b, f a = Ok b) \/ f a = Raise e) l ->
  Exists (fun a => f a = Raise e) l ->
  map_result f l = Raise e.
Proof.
  induction 1 as [|a l Ha Hl IH]; intros Hex; [inversion Hex|].
  simpl. destruct Ha as [[b Hb]|Hr].
  - rewrite Hb. inversion Hex as [? ? Hr|? ? Hex']; subst; [congruence|].
    now rewrite (IH Hex').
  - now rewrite Hr.
Qed.

Lemma map_result_total {A B} (f : A -> result B) (l : list A) :
  Forall (fun a => exists b, f a = Ok b) l ->
  exists bs, map_result f l = Ok bs /\ Forall2 (fun a b => f a = Ok b) l bs.
Proof.
  induction 1 as [|a l [b Hb] _ (bs & Hbs & HF)].
  - exists []. split; [reflexivity | constructor].
  - exists (b :: bs). simpl. rewrite Hb, Hbs. split; [reflexivity|].
    now constructor.
Qed.

(** ** Loops *)

Lemma iter_shift {A} (f : A -> A) (n : nat) (a : A) :
  Nat.iter n f (f a) = Nat.iter (S n) f a.
Proof. induction n; simpl; [reflexivity | now f_equal]. Qed.

(** [k] attempts end at their end, the next one returns or raises. *)
Lemma for_range_stops {A} (body : M (option A)) (step : world -> world)
      (n k : nat) (w w' : world) (r : result (option A)) :
  (forall j, (j < k)%nat ->
             body (Nat.iter j step w) = (Ok None, Nat.iter (S j) step w)) ->
  (k < n)%nat ->
  body (Nat.iter k step w) = (r, w') ->
  r <> Ok None ->
  for_range n body w = (r, w').
Proof.
  revert k w; induction n as [|n IH]; intros k w Hmiss Hk Hhit Hr; [lia|].
  cbn [for_range]. unfold bind.
  destruct k as [|k].
  - simpl in Hhit. rewrite Hhit.
    destruct r as [[a|]|e]; [reflexivity | congruence | reflexivity].
  - pose proof (Hmiss 0%nat ltac:(lia)) as H0. cbn [Nat.iter nat_rect] in H0.
    rewrite H0.
    apply (IH k); [|lia| |exact Hr].
    + intros j Hj. rewrite !iter_shift. apply Hmiss. lia.
    + now rewrite iter_shift.
Qed.

(** Every attempt ends at its end. *)
Lemma for_range_exhausts {A} (body : M (option A)) (step : world -> world)
      (n : nat) (w : world) :
  (forall j, (j < n)%nat ->
             body (Nat.iter j step w) = (Ok None, Nat.iter (S j) step w)) ->
  for_range n body w = (Ok None, Nat.iter n step w).
Proof.
  revert w; induction n as [|n IH]; intros w Hmiss; [reflexivity|].
  cbn [for_range]. unfold bind.
  pose proof (Hmiss 0%nat ltac:(lia)) as H0. cbn [Nat.iter nat_rect] in H0.
  rewrite H0, IH.
  - now rewrite iter_shift.
  - intros j Hj. rewrite !iter_shift. apply Hmiss. lia.
Qed.

(** The trace and the device after [k] missed attempts. *)
Lemma missed_trace (w : world) :
  trace (missed w) = (trace w ++ [EDump; ESleep (1 # 2)])%list.
Proof. unfold missed, dumped; simpl. now rewrite <- app_assoc. Qed.

Lemma iter_S {A} (f : A -> A) (n : nat) (a : A) :
  Nat.iter (S n) f a = f (Nat.iter n f a).
Proof. reflexivity. Qed.

Lemma concat_repeat_snoc {A} (l : list A) (k : nat) :
  (List.concat (repeat l k) ++ l)%list = List.concat (repeat l (S k)).
Proof.
  induction k as [|k IH]; cbn [repeat List.concat].
  - now rewrite app_nil_r.
  - cbn [repeat List.concat] in IH. now rewrite <- app_assoc, IH.
Qed.

Lemma misses_trace (k : nat) (w : world) :
  trace (Nat.iter k missed w) =
  (trace w ++ misses k)%list.
Proof.
  unfold misses. induction k as [|k IH].
  - simpl. now rewrite app_nil_r.
  - rewrite iter_S, missed_trace, IH, <- app_assoc.
    now rewrite concat_repeat_snoc.
Qed.

Lemma misses_count (k : nat) (w : world) :
  dumps_taken (Nat.iter k missed w) = (dumps_taken w + k)%nat.
Proof.
  induction k as [|k IH]; [simpl; lia|].
  rewrite iter_S. unfold missed at 1. simpl. rewrite IH. lia.
Qed.

Lemma misses_hierarchy (k : nat) (w : world) :
  hierarchy (Nat.iter k missed w) = hierarchy w.
Proof. induction k as [|k IH]; [reflexivity | rewrite iter_S; exact IH]. Qed.

Lemma misses_bytes (k : nat) (w : world) :
  dump_bytes (Nat.iter k missed w) = bytes_at w k.
Proof.
  unfold dump_bytes, bytes_at. now rewrite misses_hierarchy, misses_count.
Qed.

(** ** Bounds parsing *)

Lemma split_go_nonempty (sep s cur : string) (k : nat) :
  PyStr.split_go sep s cur k <> [].
Proof.
  revert cur k; induction s as [|c s IH]; intros cur k; [discriminate|].
  cbn [PyStr.split_go]. destruct k; [|apply IH].
  destruct (prefix sep (String c s)); [discriminate | apply IH].
Qed.

Lemma bounded_fields (item : xitem) :
  bounded item -> exists fields, bounds_fields item = Ok fields.
Proof.
  intros (attrib & s & -> & Hs). unfold bounds_fields. rewrite Hs.
  destruct (PyStr.split "][" s) as [|first rest] eqn:E.
  - now apply split_go_nonempty in E.
  - eauto.
Qed.

Lemma element_fields (item : xitem) :
  is_element item ->
  (exists fields, bounds_fields item = Ok fields) \/
  bounds_fields item = Raise KeyError.
Proof.
  intros (attrib & ->).
  destruct (dict_find "bounds" attrib) as [s|] eqn:E.
  - left. apply bounded_fields. now exists attrib, s.
  - right. unfold bounds_fields. now rewrite E.
Qed.

Lemma well_bounded_fields (item : xitem) (ab : Z * Z) :
  well_bounded item ab ->
  bounds_fields item = Ok [PyStr.of_int (fst ab); PyStr.of_int (snd ab)].
Proof.
  intros (attrib & c & d & -> & Hs).
  apply (bounds_fields_numerals attrib _ _
           (PyStr.of_int c ++ "," ++ PyStr.of_int d ++ "]")%string);
    [exact Hs | apply numeral_of_int ..].
Qed.

Lemma int_tuple_pair (ab : Z * Z) :
  int_tuple [PyStr.of_int (fst ab); PyStr.of_int (snd ab)] = Ok (pair_tuple ab).
Proof. unfold int_tuple. cbn [map_result]. now rewrite !int_of_int. Qed.

Lemma int_tuple_cases (fields : list string) :
  (exists t, int_tuple fields = Ok t) \/ int_tuple fields = Raise ValueError.
Proof.
  unfold int_tuple.
  induction fields as [|f fields IH]; [left; now exists []|].
  cbn [map_result]. destruct (PyStr.int f) as [z|]; [|now right].
  destruct IH as [[t Ht]|Hr]; [rewrite Ht; left; eauto | rewrite Hr; now right].
Qed.

Lemma int_tuple_rejects (fields : list string) (field : string) :
  In field fields -> PyStr.int field = None ->
  int_tuple fields = Raise ValueError.
Proof.
  intros Hin Hbad. unfold int_tuple.
  induction fields as [|f fields IH]; [inversion Hin|].
  cbn [map_result]. destruct Hin as [->|Hin].
  - now rewrite Hbad.
  - destruct (PyStr.int f); [now rewrite (IH Hin) | reflexivity].
Qed.

Lemma parse_bounds_well (items : list xitem) (pairs : list (Z * Z)) :
  Forall2 well_bounded items pairs ->
  parse_bounds items = Ok (map pair_tuple pairs).
Proof.
  intros H. unfold parse_bounds.
  rewrite (map_result_ok bounds_fields items
             (map (fun ab => [PyStr.of_int (fst ab); PyStr.of_int (snd ab)]) pairs)).
  - apply map_result_ok. clear H.
    induction pairs as [|ab pairs IH]; constructor;
      [apply int_tuple_pair | exact IH].
  - induction H as [|item ab items pairs Hw _ IH]; constructor;
      [now apply well_bounded_fields | exact IH].
Qed.

Lemma parse_bounds_unbounded (items : list xitem) :
  Forall is_element items -> Exists unbounded items ->
  parse_bounds items = Raise KeyError.
Proof.
  intros Hel Hex. unfold parse_bounds.
  rewrite (map_result_raise bounds_fields KeyError); [reflexivity | |].
  - eapply Forall_impl; [|exact Hel]. apply element_fields.
  - eapply Exists_impl; [|exact Hex].
    intros item (attrib & -> & Hnone). unfold bounds_fields. now rewrite Hnone.
Qed.

Lemma parse_bounds_ill (items : list xitem) :
  Forall bounded items -> Exists ill_bounded items ->
  parse_bounds items = Raise ValueError.
Proof.
  intros Hb Hex. unfold parse_bounds.
  destruct (map_result_total bounds_fields items) as (fl & -> & HF).
  { eapply Forall_impl; [|exact Hb]. apply bounded_fields. }
  apply map_result_raise.
  - apply Forall_forall. intros fields _. apply int_tuple_cases.
  - clear Hb. induction HF as [|item fields items fl Hf _ IH];
      [inversion Hex|].
    inversion Hex as [? ? Hill|? ? Hex']; subst.
    + left. destruct Hill as (fields' & field & Hf' & Hin & Hbad).
      rewrite Hf in Hf'. injection Hf' as E. subst fields'.
      now apply (int_tuple_rejects _ field).
    + right. now apply IH.
Qed.

Lemma py_index_nil {A} (i : Z) : @py_index A [] i = Raise IndexError.
Proof.
  unfold py_index. cbn [List.length Z.of_nat].
  destruct ((0 <=? _) && _); [|reflexivity].
  now destruct (Z.to_nat _).
Qed.

Lemma lookups_yield_parse (items : list xitem) (r : result (list (list Z))) :
  parse_bounds items = r -> lookups_yield items r.
Proof.
  intros Hp. split.
  - intros element w Hx. rewrite get_coordinates_xml_run, Hx.
    unfold coords_of. cbn [xiter]. now rewrite Hp.
  - intros element path_file index w bytes Hf Hx.
    rewrite (find_xml_run _ _ _ _ _ Hf), Hx.
    unfold coords_of. cbn [xiter]. rewrite Hp.
    destruct r as [coords|e]; [|reflexivity].
    split.
    + intros ->. reflexivity.
    + intros node Hn. rewrite Hn.
      destruct items; [|reflexivity].
      cbn [xgetitem] in Hn. destruct (as_int index); [|discriminate].
      now rewrite py_index_nil in Hn.
Qed.


(** ** Lookups along a polling loop *)

Lemma get_coordinates_xml_at (element : pyval) (k : nat) (w : world) :
  get_coordinates_xml element (Nat.iter k missed w) =
  (lookup_at w element k, dumped (Nat.iter k missed w)).
Proof.
  rewrite get_coordinates_xml_run, misses_bytes. reflexivity.
Qed.

Lemma find_xml_at (element index : pyval) (k : nat) (w : world) :
  find_xml element (resource_path "window_dump_0.xml") index
           (dumped (Nat.iter k missed w)) =
  (find_at w element index k, dumped (Nat.iter k missed w)).
Proof.
  rewrite (find_xml_run _ _ _ _ _ (dumped_file _)), misses_bytes.
  reflexivity.
Qed.

Lemma py_index_out {A} (l : list A) (i : Z) :
  size l <= i \/ i < - size l -> py_index l i = Raise IndexError.
Proof.
  unfold size, py_index. intros H.
  destruct (i <? 0) eqn:E;
    [apply Z.ltb_lt in E | apply Z.ltb_ge in E];
    (destruct ((0 <=? _) && _) eqn:B; [|reflexivity]);
    apply andb_prop in B as [B1 B2];
    apply Z.leb_le in B1; apply Z.ltb_lt in B2; lia.
Qed.

Lemma py_index_in {A} (l : list A) (i : Z) :
  - size l <= i < size l -> exists a, py_index l i = Ok a.
Proof.
  unfold size, py_index. intros H.
  set (j := if i <? 0 then i + Z.of_nat (List.length l) else i).
  assert (Hj : 0 <= j < Z.of_nat (List.length l)).
  { subst j. destruct (i <? 0) eqn:E;
      [apply Z.ltb_lt in E | apply Z.ltb_ge in E]; lia. }
  replace ((0 <=? j) && (j <? Z.of_nat (List.length l))) with true
    by (symmetry; apply andb_true_intro; split;
        [apply Z.leb_le | apply Z.ltb_lt]; lia).
  destruct (nth_error l (Z.to_nat j)) as [a|] eqn:E; [eauto|].
  apply nth_error_None in E. lia.
Qed.

Lemma click_trace (x y : Z) (w : world) :
  click x y w = (Ok tt, snd (click x y w)) /\
  trace (snd (click x y w)) = (trace w ++ [tap x y])%list.
Proof. split; reflexivity. Qed.

Lemma click_attempt_miss (element : string) (index : Z) (w : world) :
  get_coordinates_xml (VStr element) w = (Ok [], dumped w) ->
  click_coordinates_xml_attempt element index w = (Ok None, missed w).
Proof.
  intros H. unfold click_coordinates_xml_attempt, bind. now rewrite H.
Qed.

Lemma click_attempt_hit (element : string) (index : Z) (w : world)
      (part : list (list Z)) (coords : list Z) (x y : Z) :
  get_coordinates_xml (VStr element) w = (Ok part, dumped w) ->
  py_index part index = Ok coords ->
  py_index coords 0 = Ok x -> py_index coords 1 = Ok y ->
  click_coordinates_xml_attempt element index w =
  (Ok (Some true), snd (click x y (dumped w))).
Proof.
  intros H Hc Hx Hy. unfold click_coordinates_xml_attempt, bind. rewrite H.
  destruct part as [|p part]; [now rewrite py_index_nil in Hc|].
  unfold lift. now rewrite Hc, Hx, Hy.
Qed.

Lemma click_attempt_out (element : string) (index : Z) (w : world)
      (part : list (list Z)) :
  get_coordinates_xml (VStr element) w = (Ok part, dumped w) ->
  part <> [] ->
  size part <= index \/ index < - size part ->
  click_coordinates_xml_attempt element index w = (Raise IndexError, dumped w).
Proof.
  intros H Hne Hout. unfold click_coordinates_xml_attempt, bind. rewrite H.
  destruct part as [|p part]; [now elim Hne|].
  unfold lift. now rewrite (py_index_out _ _ Hout).
Qed.

(** C2: on a document on which [html.parse(...).xpath(element)] raises,
    [find_xml] swallows the exception and answers [([], None)], while
    [get_coordinates_xml], which has no [try], lets it reach the caller. *)
Theorem xpath_exception_paths (element index : pyval) (w : world) (e : exn) :
  xpath_on (dump_bytes w) element = Raise e ->
  find_xml element (resource_path "window_dump_0.xml") index (dumped w) =
    (Ok ([], None), dumped w) /\
  get_coordinates_xml element w = (Raise e, dumped w).
Proof.
  intros H. split.
  - now rewrite (find_xml_run _ _ _ _ _ (dumped_file w)), H.
  - now rewrite get_coordinates_xml_run, H.
Qed.

(** C10 (as amended): when the expression matches at least one element and
    the bounds of every match parse, [find_xml] raises [IndexError] for an
    index at least the number of matches; [click_coordinates_xml] raises
    [IndexError] at the first attempt that finds coordinates when its index
    is out of their range. *)
Theorem index_unguarded (w : world) :
  (forall element index path_file bytes items coords i,
      text_files w path_file = Some bytes ->
      xpath_on bytes element = Ok (XItems items) ->
      items <> [] ->
      parse_bounds items = Ok coords ->
      as_int index = Ok i ->
      size items <= i ->
      find_xml element path_file index w = (Raise IndexError, w)) /\
  (forall element index k part,
      (k < 15)%nat ->
      (forall j, (j < k)%nat -> lookup_at w (VStr element) j = Ok []) ->
      lookup_at w (VStr element) k = Ok part ->
      part <> [] ->
      size part <= index \/ index < - size part ->
      click_coordinates_xml element index w =
      (Raise IndexError, dumped (Nat.iter k missed w))).
Proof.
  split.
  - intros element index path_file bytes items coords i Hf Hx Hne Hp Hi Hge.
    rewrite (find_xml_run _ _ _ _ _ Hf), Hx.
    unfold coords_of. cbn [xiter]. rewrite Hp.
    destruct items as [|item items]; [now elim Hne|].
    cbn [xtruthy xgetitem]. rewrite Hi.
    now rewrite py_index_out by (left; exact Hge).
  - intros element index k part Hk Hmiss Hhit Hne Hout.
    unfold click_coordinates_xml, bind.
    rewrite (for_range_stops _ missed 15 k w (dumped (Nat.iter k missed w))
               (Raise IndexError)); [reflexivity | | exact Hk | | discriminate].
    + intros j Hj. apply click_attempt_miss.
      rewrite get_coordinates_xml_at. now rewrite (Hmiss j Hj).
    + apply (click_attempt_out _ _ _ part); [|exact Hne | exact Hout].
      rewrite get_coordinates_xml_at. now rewrite Hhit.
Qed.

(** ** Polling *)

Lemma check_text_attempt_run (text : string) (w : world) :
  check_text_xml_attempt text w =
  if PyStr.contains text (TextIO.read_newlines (dump_bytes w))
  then (Ok (Some true), dumped w)
  else (Ok None, missed w).
Proof.
  unfold check_text_xml_attempt, bind.
  change (dump_xml w) with (Ok (resource_path "window_dump_0.xml"), dumped w).
  cbv beta iota. unfold read_text. rewrite dumped_file.
  destruct (PyStr.contains text _); reflexivity.
Qed.

Lemma check_text_attempt_at (text : string) (k : nat) (w : world) :
  check_text_xml_attempt text (Nat.iter k missed w) =
  if PyStr.contains text (text_at w k)
  then (Ok (Some true), dumped (Nat.iter k missed w))
  else (Ok None, Nat.iter (S k) missed w).
Proof. rewrite check_text_attempt_run, misses_bytes. reflexivity. Qed.

Lemma hit_trace (k : nat) (w : world) :
  trace (dumped (Nat.iter k missed w)) = (trace w ++ misses k ++ [EDump])%list.
Proof. now rewrite dumped_trace, misses_trace, <- app_assoc. Qed.

Lemma check_text_xml_found (w : world) (text : string) (retries : Z) (k : nat) :
  (k < Z.to_nat retries)%nat ->
  (forall j, (j < k)%nat -> PyStr.contains text (text_at w j) = false) ->
  PyStr.contains text (text_at w k) = true ->
  exists w',
    check_text_xml text retries w = (Ok true, w') /\
    trace w' = (trace w ++ misses k ++ [EDump])%list.
Proof.
  intros Hk Hmiss Hhit.
  exists (dumped (Nat.iter k missed w)). split; [|apply hit_trace].
  unfold check_text_xml, bind.
  rewrite (for_range_stops _ missed _ k w (dumped (Nat.iter k missed w))
             (Ok (Some true))); [reflexivity | | exact Hk | | discriminate].
  - intros j Hj. now rewrite check_text_attempt_at, (Hmiss j Hj).
  - now rewrite check_text_attempt_at, Hhit.
Qed.

Lemma check_text_xml_exhausted (w : world) (text : string) (retries : Z) :
  (forall j, (j < Z.to_nat retries)%nat ->
             PyStr.contains text (text_at w j) = false) ->
  exists w',
    check_text_xml text retries w = (Ok false, w') /\
    trace w' = (trace w ++ misses (Z.to_nat retries))%list.
Proof.
  intros Hmiss.
  exists (Nat.iter (Z.to_nat retries) missed w). split; [|apply misses_trace].
  unfold check_text_xml, bind.
  rewrite (for_range_exhausts _ missed); [reflexivity|].
  intros j Hj. now rewrite check_text_attempt_at, (Hmiss j Hj).
Qed.

Lemma click_coordinates_xml_found (w : world) (element : string) (index : Z)
      (k : nat) (part : list (list Z)) (x y : Z) :
  (k < 15)%nat ->
  (forall j, (j < k)%nat -> lookup_at w (VStr element) j = Ok []) ->
  lookup_at w (VStr element) k = Ok part ->
  py_index part index = Ok [x; y] ->
  exists w',
    click_coordinates_xml element index w = (Ok true, w') /\
    trace w' = (trace w ++ misses k ++ [EDump; tap x y])%list.
Proof.
  intros Hk Hmiss Hhit Hxy.
  exists (snd (click x y (dumped (Nat.iter k missed w)))). split.
  - unfold click_coordinates_xml, bind.
    rewrite (for_range_stops _ missed 15 k w
               (snd (click x y (dumped (Nat.iter k missed w))))
               (Ok (Some true))); [reflexivity | | exact Hk | | discriminate].
    + intros j Hj. apply click_attempt_miss.
      rewrite get_coordinates_xml_at. now rewrite (Hmiss j Hj).
    + apply (click_attempt_hit _ _ _ part [x; y]);
        [|exact Hxy | reflexivity | reflexivity].
      rewrite get_coordinates_xml_at. now rewrite Hhit.
  - rewrite (proj2 (click_trace x y _)), hit_trace.
    now rewrite <- !app_assoc.
Qed.

Lemma click_coordinates_xml_exhausted (w : world) (element : string)
      (index : Z) :
  (forall j, (j < 15)%nat -> lookup_at w (VStr element) j = Ok []) ->
  exists w',
    click_coordinates_xml element index w = (Ok false, w') /\
    trace w' = (trace w ++ misses 15)%list.
Proof.
  intros Hmiss.
  exists (Nat.iter 15 missed w). split; [|apply misses_trace].
  unfold click_coordinates_xml, bind.
  rewrite (for_range_exhausts _ missed); [reflexivity|].
  intros j Hj. apply click_attempt_miss.
  rewrite get_coordinates_xml_at. now rewrite (Hmiss j Hj).
Qed.


(** ** Writing the dump and reading it back *)

Lemma read_write_newlines (s : string) :
  no_char CR s = true ->
  TextIO.read_newlines (TextIO.write_newlines os s) = s.
Proof.
  induction s as [|c s IH]; intros H; [reflexivity|].
  cbn [no_char] in H. apply andb_prop in H as [Hc Hs].
  apply negb_true_iff in Hc. specialize (IH Hs).
  cbn [TextIO.write_newlines].
  destruct (Ascii.eqb c LF) eqn:E.
  - apply Ascii.eqb_eq in E. subst c.
    destruct os; cbn; now rewrite IH.
  - cbn [TextIO.read_newlines]. now rewrite Hc, IH.
Qed.

Lemma prefix_split (p s : string) :
  prefix p s = true -> exists r, s = (p ++ r)%string.
Proof.
  revert s; induction p as [|a p IH]; intros s H.
  - now exists s.
  - destruct s as [|b s]; [discriminate|]. simpl in H.
    destruct (ascii_dec a b) as [->|]; [|discriminate].
    destruct (IH _ H) as [r ->]. now exists r.
Qed.

(** [in] is the substring relation. *)
Lemma contains_iff (t s : string) :
  PyStr.contains t s = true <->
  exists pre post, s = (pre ++ t ++ post)%string.
Proof.
  split.
  - induction s as [|c s IH]; cbn [PyStr.contains]; intros H.
    + rewrite orb_false_r in H. destruct (prefix_split _ _ H) as [r ->].
      now exists "", r.
    + apply orb_prop in H as [H|H].
      * destruct (prefix_split _ _ H) as [r ->]. now exists "", r.
      * destruct (IH H) as (pre & post & ->). now exists (String c pre), post.
  - intros (pre & post & ->).
    induction pre as [|c pre IH].
    + cbn [append]. destruct (t ++ post)%string eqn:E;
        cbn [PyStr.contains]; rewrite <- E, prefix_app; reflexivity.
    + cbn [append PyStr.contains]. rewrite IH. apply orb_true_r.
Qed.

(** C7 (as amended): while the device shows a [content] that holds no
    carriage return, and with a budget of at least one attempt,
    [check_text_xml] returns [True] (after a single dump) for every
    substring of [content] and [False] (after the whole budget) for every
    string that is not a substring of it. *)
Theorem dump_reload_roundtrip (w : world) (content text : string) (retries : Z) :
  no_char CR content = true ->
  0 < retries ->
  (forall j, (j < Z.to_nat retries)%nat ->
             hierarchy w (dumps_taken w + j)%nat = content) ->
  ((exists pre post, content = (pre ++ text ++ post)%string) ->
   exists w',
     check_text_xml text retries w = (Ok true, w') /\
     trace w' = (trace w ++ [EDump])%list) /\
  (~ (exists pre post, content = (pre ++ text ++ post)%string) ->
   exists w',
     check_text_xml text retries w = (Ok false, w') /\
     trace w' = (trace w ++ misses (Z.to_nat retries))%list).
Proof.
  intros Hcr Hpos Hshow.
  assert (Hat : forall j, (j < Z.to_nat retries)%nat -> text_at w j = content).
  { intros j Hj. unfold text_at, bytes_at. rewrite (Hshow j Hj).
    now apply read_write_newlines. }
  split.
  - intros Hsub. apply contains_iff in Hsub.
    destruct (check_text_xml_found w text retries 0) as (w' & Hrun & Htr).
    + lia.
    + intros j Hj. lia.
    + rewrite Hat by lia. exact Hsub.
    + exists w'. split; [exact Hrun | exact Htr].
  - intros Hnot. apply check_text_xml_exhausted.
    intros j Hj. rewrite (Hat j Hj).
    destruct (PyStr.contains text content) eqn:E; [|reflexivity].
    elim Hnot. now apply contains_iff.
Qed.

(** ** Text entry *)

Lemma bind_ok {A B} (m : M A) (k : A -> M B) (w : world) (a : A) (w' : world) :
  m w = (Ok a, w') -> bind m k w = k a w'.
Proof. intros H. unfold bind. now rewrite H. Qed.

Lemma for_each_shell {A} (cmd : A -> string) (l : list A) (w : world) :
  exists w',
    for_each l (fun a => shell (cmd a) ;;; ret (@None unit)) w = (Ok None, w') /\
    trace w' = (trace w ++ map (fun a => EShell (cmd a)) l)%list.
Proof.
  revert w; induction l as [|a l IH]; intros w.
  - exists w. split; [reflexivity | now rewrite app_nil_r].
  - destruct (IH (snd (shell (cmd a) w))) as (w' & Hrun & Htr).
    exists w'. split.
    + cbn [for_each]. unfold bind at 1 2. cbn [shell emit ret].
      exact Hrun.
    + rewrite Htr. cbn [shell emit snd trace map].
      now rewrite <- app_assoc.
Qed.

Lemma chars_length (s : string) :
  List.length (list_ascii_of_string s) = String.length s.
Proof. induction s; simpl; congruence. Qed.


(** ** Named conditions *)

Lemma for_each_none {A B} (body : A -> M (option B)) (l : list A) (w : world) :
  Forall (fun a => body a w = (Ok None, w)) l ->
  for_each l body w = (Ok None, w).
Proof.
  induction 1 as [|a l Ha _ IH]; [reflexivity|].
  cbn [for_each]. unfold bind. now rewrite Ha.
Qed.

Lemma for_each_first {A B} (body : A -> M (option B)) (pre post : list A)
      (x : A) (b : B) (w : world) :
  Forall (fun a => body a w = (Ok None, w)) pre ->
  body x w = (Ok (Some b), w) ->
  for_each (pre ++ x :: post) body w = (Ok (Some b), w).
Proof.
  intros Hpre Hx. induction Hpre as [|a pre Ha _ IH].
  - cbn [app for_each]. unfold bind. now rewrite Hx.
  - cbn [app for_each]. unfold bind. now rewrite Ha.
Qed.

Lemma element_item_at (index : pyval) (cond : string * pyval) (k : nat)
      (w : world) :
  is_element_checked_item (resource_path "window_dump_0.xml") index cond
                          (dumped (Nat.iter k missed w)) =
  (match find_at w (snd cond) index k with
   | Ok (_ :: _, _) => Ok (Some (fst cond))
   | Ok ([], _) => Ok None
   | Raise e => Raise e
   end, dumped (Nat.iter k missed w)).
Proof.
  destruct cond as [name value]. unfold is_element_checked_item, bind.
  rewrite find_xml_at. cbn [fst snd].
  destruct (find_at w value index k) as [[[|c cs] node]|e]; reflexivity.
Qed.

Lemma element_attempt_miss (kwargs : list (string * pyval)) (index : pyval)
      (k : nat) (w : world) :
  Forall (no_match_at w index k) kwargs ->
  is_element_checked_attempt kwargs index (Nat.iter k missed w) =
  (Ok None, Nat.iter (S k) missed w).
Proof.
  intros H. unfold is_element_checked_attempt, bind.
  change (dump_xml (Nat.iter k missed w))
    with (Ok (resource_path "window_dump_0.xml"), dumped (Nat.iter k missed w)).
  cbv beta iota. rewrite for_each_none; [reflexivity|].
  eapply Forall_impl; [|exact H].
  intros cond (node & Hn). now rewrite element_item_at, Hn.
Qed.

Lemma element_attempt_hit (pre post : list (string * pyval)) (name : string)
      (value index : pyval) (k : nat) (w : world) :
  Forall (no_match_at w index k) pre ->
  matches_at w index k (name, value) ->
  is_element_checked_attempt (pre ++ (name, value) :: post) index
                             (Nat.iter k missed w) =
  (Ok (Some name), dumped (Nat.iter k missed w)).
Proof.
  intros Hpre (c & cs & node & Hhit). unfold is_element_checked_attempt, bind.
  change (dump_xml (Nat.iter k missed w))
    with (Ok (resource_path "window_dump_0.xml"), dumped (Nat.iter k missed w)).
  cbv beta iota. rewrite (for_each_first _ pre post (name, value) name).
  - reflexivity.
  - eapply Forall_impl; [|exact Hpre].
    intros cond (node' & Hn). now rewrite element_item_at, Hn.
  - rewrite element_item_at. cbn [snd] in Hhit |- *. now rewrite Hhit.
Qed.

Lemma range_len_ok (v : pyval) (n : Z) (w : world) :
  as_int v = Ok n -> range_len v w = (Ok (Z.to_nat n), w).
Proof. intros H. unfold range_len, bind, lift. now rewrite H. Qed.


(** ** Polling one element *)

Lemma py_lt_int_as_int (v : pyval) (i n : Z) :
  as_int v = Ok i -> py_lt_int v n = Ok (i <? n).
Proof.
  destruct v; cbn [as_int py_lt_int]; intros H; try discriminate;
    now injection H as <-.
Qed.

Lemma element_poll_miss (element index should_click : pyval) (w : world)
      (part : list (list Z)) :
  get_coordinates_xml element w = (Ok part, dumped w) ->
  part = [] \/ (exists i, as_int index = Ok i /\ size part <= i) ->
  check_xml_element_attempt element index should_click w = (Ok None, missed w).
Proof.
  intros H Hcase. unfold check_xml_element_attempt, bind. rewrite H.
  destruct part as [|p part]; [reflexivity|].
  destruct Hcase as [Hnil|(i & Hi & Hge)]; [discriminate|].
  unfold lift. rewrite (py_lt_int_as_int _ _ _ Hi).
  now replace (i <? size (p :: part)) with false
    by (symmetry; apply Z.ltb_ge; exact Hge).
Qed.

Lemma element_poll_hit (element index should_click : pyval) (w : world)
      (part : list (list Z)) (i x y : Z) :
  get_coordinates_xml element w = (Ok part, dumped w) ->
  as_int index = Ok i ->
  py_index part i = Ok [x; y] ->
  check_xml_element_attempt element index should_click w =
  (Ok (Some true),
   if truthy should_click then snd (click x y (dumped w)) else dumped w).
Proof.
  intros H Hi Hxy. unfold check_xml_element_attempt, bind. rewrite H.
  destruct part as [|p part]; [now rewrite py_index_nil in Hxy|].
  unfold lift. rewrite (py_lt_int_as_int _ _ _ Hi).
  destruct (i <? size (p :: part)) eqn:E.
  - rewrite Hi, Hxy. now destruct (truthy should_click).
  - apply Z.ltb_ge in E. rewrite py_index_out in Hxy by (now left).
    discriminate.
Qed.

Lemma element_poll_below (element index should_click : pyval) (w : world)
      (part : list (list Z)) (i : Z) :
  get_coordinates_xml element w = (Ok part, dumped w) ->
  part <> [] ->
  as_int index = Ok i ->
  i < - size part ->
  check_xml_element_attempt element index should_click w =
  (Raise IndexError, dumped w).
Proof.
  intros H Hne Hi Hlow. unfold check_xml_element_attempt, bind. rewrite H.
  destruct part as [|p part]; [now elim Hne|].
  unfold lift. rewrite (py_lt_int_as_int _ _ _ Hi).
  assert (0 <= size (p :: part)) by (unfold size; lia).
  replace (i <? size (p :: part)) with true
    by (symmetry; apply Z.ltb_lt; lia).
  rewrite Hi. now rewrite py_index_out by (now right).
Qed.

(** X18: what [check_xml_element] does for an index that selects one of the
    coordinates found (Python's indices, negative ones counting from the
    end): it taps it when [click] is true and returns [True]; and [False]
    after a budget of attempts that found nothing or fewer coordinates than
    the index asks for. *)
Lemma check_xml_element_polls (kwargs : list (string * pyval)) (w : world)
      (n i : Z) :
  as_int (dict_get kwargs "repeat" (VInt 20)) = Ok n ->
  as_int (dict_get kwargs "index" (VInt 0)) = Ok i ->
  let element := dict_get kwargs "element" (VStr "") in
  let should_click := dict_get kwargs "click" (VBool true) in
  (forall k part x y,
      (k < Z.to_nat n)%nat ->
      (forall j, (j < k)%nat ->
                 exists p, lookup_at w element j = Ok p /\ (p = [] \/ size p <= i)) ->
      lookup_at w element k = Ok part ->
      py_index part i = Ok [x; y] ->
      exists w',
        check_xml_element kwargs w = (Ok true, w') /\
        trace w' = (trace w ++ misses k ++ EDump ::
                      if truthy should_click then [tap x y] else [])%list) /\
  ((forall j, (j < Z.to_nat n)%nat ->
              exists p, lookup_at w element j = Ok p /\ (p = [] \/ size p <= i)) ->
   exists w',
     check_xml_element kwargs w = (Ok false, w') /\
     trace w' = (trace w ++ misses (Z.to_nat n))%list).
Proof.
  intros Hn Hi element should_click.
  assert (Hmiss_step : forall j,
             (exists p, lookup_at w element j = Ok p /\ (p = [] \/ size p <= i)) ->
             check_xml_element_attempt element
               (dict_get kwargs "index" (VInt 0)) should_click
               (Nat.iter j missed w) = (Ok None, Nat.iter (S j) missed w)).
  { intros j (p & Hp & Hcase). apply (element_poll_miss _ _ _ _ p).
    - rewrite get_coordinates_xml_at. now rewrite Hp.
    - destruct Hcase as [->|Hge]; [now left | right; eauto]. }
  split.
  - intros k part x y Hk Hmiss Hhit Hxy.
    exists (if truthy should_click
            then snd (click x y (dumped (Nat.iter k missed w)))
            else dumped (Nat.iter k missed w)).
    split.
    + unfold check_xml_element. fold element should_click.
      rewrite (bind_ok _ _ _ _ _ (range_len_ok _ _ w Hn)).
      rewrite (bind_ok _ _ _ (Some true)
                 (if truthy should_click
                  then snd (click x y (dumped (Nat.iter k missed w)))
                  else dumped (Nat.iter k missed w))); [reflexivity|].
      apply (for_range_stops _ missed _ k); [|exact Hk| |discriminate].
      * intros j Hj. now apply Hmiss_step, Hmiss.
      * apply (element_poll_hit _ _ _ _ part i); [|exact Hi | exact Hxy].
        rewrite get_coordinates_xml_at. now rewrite Hhit.
    + destruct (truthy should_click).
      * rewrite (proj2 (click_trace x y _)), hit_trace.
        now rewrite <- !app_assoc.
      * now rewrite hit_trace.
  - intros Hmiss.
    exists (Nat.iter (Z.to_nat n) missed w). split; [|apply misses_trace].
    unfold check_xml_element. fold element should_click.
    rewrite (bind_ok _ _ _ _ _ (range_len_ok _ _ w Hn)).
    rewrite (bind_ok _ _ _ None (Nat.iter (Z.to_nat n) missed w));
      [reflexivity|].
    apply for_range_exhausts.
    intros j Hj. now apply Hmiss_step, Hmiss.
Qed.

(** C8: the guard of [check_xml_element] is [index < len(coordinates)]
    only, so an index below [-len(coordinates)] passes it: at the first
    attempt that finds coordinates the method raises [IndexError] instead of
    polling on and returning [False]. *)
Theorem check_xml_element_negative_index (kwargs : list (string * pyval))
        (w : world) (n i : Z) (k : nat) (part : list (list Z)) :
  as_int (dict_get kwargs "repeat" (VInt 20)) = Ok n ->
  as_int (dict_get kwargs "index" (VInt 0)) = Ok i ->
  (k < Z.to_nat n)%nat ->
  (forall j, (j < k)%nat ->
             lookup_at w (dict_get kwargs "element" (VStr "")) j = Ok []) ->
  lookup_at w (dict_get kwargs "element" (VStr "")) k = Ok part ->
  part <> [] ->
  i < - size part ->
  check_xml_element kwargs w = (Raise IndexError, dumped (Nat.iter k missed w)).
Proof.
  intros Hn Hi Hk Hmiss Hhit Hne Hlow.
  unfold check_xml_element.
  rewrite (bind_ok _ _ _ _ _ (range_len_ok _ _ w Hn)).
  unfold bind at 1.
  rewrite (for_range_stops _ missed _ k w (dumped (Nat.iter k missed w))
             (Raise IndexError)); [reflexivity | | exact Hk | | discriminate].
  - intros j Hj. apply (element_poll_miss _ _ _ _ []); [|now left].
    rewrite get_coordinates_xml_at. now rewrite (Hmiss j Hj).
  - apply (element_poll_below _ _ _ _ part i); [|exact Hne|exact Hi|exact Hlow].
    rewrite get_coordinates_xml_at. now rewrite Hhit.
Qed.

(** ** Template matching *)

Lemma py_index_head {A} (a : A) (l : list A) : py_index (a :: l) 0 = Ok a.
Proof.
  unfold py_index. cbn [List.length Z.ltb Z.compare Z.leb].
  replace (0 <? Z.of_nat (S (List.length l))) with true
    by (symmetry; apply Z.ltb_lt; lia).
  reflexivity.
Qed.

Lemma get_coordinates_image_run (target_image_path : string) (threshold : Q)
      (w : world) :
  get_coordinates_image target_image_path threshold w =
  (match image_files w target_image_path with
   | None => Raise Cv2Error
   | Some t =>
       match matchTemplate (screen w (shots_taken w)) t with
       | Ok res => Ok (located res threshold t)
       | Raise e => Raise e
       end
   end, snd (screen_capture w)).
Proof.
  unfold get_coordinates_image, bind, imread.
  change (screen_capture w)
    with (Ok (resource_path "screenshot_window_0.png"), snd (screen_capture w)).
  cbv beta iota.
  replace (image_files (snd (screen_capture w))
                       (resource_path "screenshot_window_0.png"))
    with (Some (screen w (shots_taken w)))
    by (cbn [screen_capture snd image_files]; now rewrite String.eqb_refl).
  destruct (image_files w target_image_path) as [t|]; [|reflexivity].
  cbn [cv_matchTemplate]. unfold lift.
  destruct (matchTemplate (screen w (shots_taken w)) t) as [res|e];
    [|reflexivity].
  unfold located, np_where.
  destruct (where_go (ge_mask res threshold) 0) as [|[y x] hits];
    [reflexivity|].
  cbn [map fst snd]. unfold size. cbn [List.length].
  replace (Z.of_nat (S (List.length (map snd hits))) >? 0) with true
    by (symmetry; apply Z.gtb_lt; lia).
  replace (Z.of_nat (S (List.length (map fst hits))) >? 0) with true
    by (symmetry; apply Z.gtb_lt; lia).
  cbn [andb]. now rewrite !py_index_head.
Qed.

Lemma row_hits_none (row : list bool) (x0 : Z) :
  Forall (fun b => b = false) row -> row_hits row x0 = [].
Proof.
  revert x0; induction row as [|b row IH]; intros x0 H; [reflexivity|].
  inversion H as [|? ? Hb Hrow]; subst. cbn [row_hits app]. now apply IH.
Qed.

Lemma all_false_nth (row : list bool) :
  (forall x, nth_error row x <> Some true) -> Forall (fun b => b = false) row.
Proof.
  induction row as [|b row IH]; intros H; constructor.
  - specialize (H 0%nat). destruct b; [now elim H | reflexivity].
  - apply IH. intros x. exact (H (S x)).
Qed.

Lemma row_hits_first (row : list bool) (x : nat) (x0 : Z) :
  nth_error row x = Some true ->
  (forall x', (x' < x)%nat -> nth_error row x' <> Some true) ->
  exists rest, row_hits row x0 = (x0 + Z.of_nat x) :: rest.
Proof.
  revert x x0; induction row as [|b row IH]; intros x x0 Hx Hbefore.
  - now destruct x.
  - destruct x as [|x].
    + injection Hx as ->. cbn [row_hits app].
      exists (row_hits row (x0 + 1)). f_equal. lia.
    + assert (b = false).
      { specialize (Hbefore 0%nat ltac:(lia)).
        destruct b; [now elim Hbefore | reflexivity]. }
      subst b. cbn [row_hits app].
      destruct (IH x (x0 + 1)) as [rest Hrest].
      * exact Hx.
      * intros x' Hx'. apply (Hbefore (S x')). lia.
      * exists rest. rewrite Hrest. f_equal. lia.
Qed.

Lemma where_go_none (mask : list (list bool)) (y0 : Z) :
  (forall y x, entry mask y x <> Some true) -> where_go mask y0 = [].
Proof.
  revert y0; induction mask as [|row mask IH]; intros y0 H; [reflexivity|].
  cbn [where_go]. rewrite row_hits_none.
  - apply IH. intros y x. exact (H (S y) x).
  - apply all_false_nth. intros x. exact (H 0%nat x).
Qed.

Lemma where_go_first (mask : list (list bool)) (y x : nat) (y0 : Z) :
  entry mask y x = Some true ->
  (forall y' x', earlier y' x' y x -> entry mask y' x' <> Some true) ->
  exists rest, where_go mask y0 = (y0 + Z.of_nat y, Z.of_nat x) :: rest.
Proof.
  revert y y0; induction mask as [|row mask IH]; intros y y0 Hhit Hbefore.
  - now destruct y.
  - destruct y as [|y]; cbn [where_go].
    + destruct (row_hits_first row x 0) as [rest Hrest].
      * exact Hhit.
      * intros x' Hx'. apply (Hbefore 0%nat x'). right. now split.
      * rewrite Hrest. cbn [map app].
        eexists. f_equal. f_equal. lia.
    + rewrite row_hits_none.
      * destruct (IH y (y0 + 1)) as [rest Hrest].
        -- exact Hhit.
        -- intros y' x' He. apply (Hbefore (S y') x').
           destruct He as [He|[-> He]]; [left; lia | right; now split].
        -- exists rest. cbn [map app]. rewrite Hrest. f_equal. f_equal. lia.
      * apply all_false_nth. intros x'. apply (Hbefore 0%nat x'). left. lia.
Qed.

Lemma ge_mask_entry (res : list (list Q)) (threshold : Q) (y x : nat) :
  entry (ge_mask res threshold) y x =
  option_map (fun s => Qle_bool threshold s) (entry res y x).
Proof.
  unfold entry, ge_mask. rewrite nth_error_map.
  destruct (nth_error res y) as [row|]; [|reflexivity].
  cbn [option_map]. now rewrite nth_error_map.
Qed.

Lemma located_first (res : list (list Q)) (threshold : Q) (target : image)
      (y x : nat) :
  first_reaching res threshold y x ->
  located res threshold target =
  VTuple [Z.of_nat x + shape1 target / 2; Z.of_nat y + shape0 target / 2].
Proof.
  intros [(s & Hs & Hle) Hbefore]. unfold located.
  destruct (where_go_first (ge_mask res threshold) y x 0) as [rest ->].
  - rewrite ge_mask_entry, Hs. cbn [option_map]. f_equal.
    now apply Qle_bool_iff.
  - intros y' x' He. rewrite ge_mask_entry.
    destruct (entry res y' x') as [s'|] eqn:E; [|discriminate].
    cbn [option_map]. intros H. injection H as H.
    apply Qle_bool_iff in H. exact (Hbefore y' x' s' He E H).
  - reflexivity.
Qed.

Lemma located_none (res : list (list Q)) (threshold : Q) (target : image) :
  none_reaching res threshold -> located res threshold target = VBool false.
Proof.
  intros Hnone. unfold located. rewrite where_go_none; [reflexivity|].
  intros y x. rewrite ge_mask_entry.
  destruct (entry res y x) as [s|] eqn:E; [|discriminate].
  cbn [option_map]. intros H. injection H as H.
  apply Qle_bool_iff in H. exact (Hnone y x s E H).
Qed.

(** C3 (as amended): on the matrix of scores OpenCV returns for a fresh
    screenshot and the reference image, [get_coordinates_image] returns the
    first location (row by row, left to right) whose score reaches the
    threshold, moved by half the reference's width and height; so it returns
    [(px + width // 2, py + height // 2)] for a reference pasted at
    [(px, py)] when no earlier location reaches the threshold; and it
    returns [False] when no location reaches it. *)
Theorem locate_image (target_image_path : string) (threshold : Q) (w : world)
        (target : image) (res : list (list Q)) :
  image_files w target_image_path = Some target ->
  matchTemplate (screen w (shots_taken w)) target = Ok res ->
  (forall py px,
      first_reaching res threshold py px ->
      fst (get_coordinates_image target_image_path threshold w) =
      Ok (VTuple [Z.of_nat px + shape1 target / 2;
                  Z.of_nat py + shape0 target / 2])) /\
  (none_reaching res threshold ->
   fst (get_coordinates_image target_image_path threshold w) = Ok (VBool false)).
Proof.
  intros Ht Hres. rewrite get_coordinates_image_run, Ht, Hres. cbn [fst].
  split.
  - intros py px H. now rewrite (located_first _ _ _ _ _ H).
  - intros H. now rewrite (located_none _ _ _ H).
Qed.

Lemma located_cases (res : list (list Q)) (threshold : Q) (target : image) :
  located res threshold target = VBool false \/
  exists x y, located res threshold target = VTuple [x; y].
Proof.
  unfold located.
  destruct (where_go (ge_mask res threshold) 0) as [|[y x] hits];
    [now left | right; eauto].
Qed.

(** C9: [click_coordinates_image] never returns [True]: it returns [False]
    when the image lookup answers [False], and [None], after the tap, when
    the lookup answers coordinates. *)
Theorem click_image_result (image_path : string) (w : world) :
  fst (click_coordinates_image image_path w) <> Ok (VBool true) /\
  (forall w',
      get_coordinates_image image_path 1 w = (Ok (VBool false), w') ->
      click_coordinates_image image_path w = (Ok (VBool false), w')) /\
  (forall x y w',
      get_coordinates_image image_path 1 w = (Ok (VTuple [x; y]), w') ->
      click_coordinates_image image_path w = (Ok VNone, snd (click x y w')) /\
      trace (snd (click x y w')) = (trace w' ++ [tap x y])%list).
Proof.
  split; [|split].
  - unfold click_coordinates_image, bind.
    rewrite get_coordinates_image_run.
    destruct (image_files w image_path) as [t|]; [|discriminate].
    destruct (matchTemplate (screen w (shots_taken w)) t) as [res|e];
      [|discriminate].
    destruct (located_cases res 1 t) as [->|(x & y & ->)]; discriminate.
  - intros w' H. unfold click_coordinates_image, bind. now rewrite H.
  - intros x y w' H. split; [|reflexivity].
    unfold click_coordinates_image, bind. now rewrite H.
Qed.

(** ** Scrolling to an element *)

Lemma for_range_ext {A} (b1 b2 : M (option A)) (n : nat) (w : world) :
  (forall w0, b1 w0 = b2 w0) -> for_range n b1 w = for_range n b2 w.
Proof.
  intros H. revert w; induction n as [|n IH]; intros w; [reflexivity|].
  cbn [for_range]. unfold bind. rewrite H.
  destruct (b2 w) as [[[a|]|e] w1]; [reflexivity | apply IH | reflexivity].
Qed.

Lemma taps_run (x y : Z) (n : nat) (w : world) :
  exists w',
    for_range n
      (x0 <- lift (py_index [x; y] 0) ;;
       y0 <- lift (py_index [x; y] 1) ;;
       click x0 y0 ;;; ret (@None unit)) w = (Ok None, w') /\
    trace w' = (trace w ++ repeat (tap x y) n)%list.
Proof.
  revert w; induction n as [|n IH]; intros w.
  - exists w. split; [reflexivity | now rewrite app_nil_r].
  - destruct (IH (snd (click x y w))) as (w' & Hrun & Htr).
    exists w'. split.
    + cbn [for_range]. unfold bind at 1. exact Hrun.
    + rewrite Htr. rewrite (proj2 (click_trace x y w)).
      now rewrite <- app_assoc.
Qed.

Lemma scrollable_attempt_once (element : string) (index : Z) (w : world) :
  scrollable_attempt element 1 index w =
  click_coordinates_xml_attempt element index w.
Proof.
  unfold scrollable_attempt, click_coordinates_xml_attempt, bind.
  destruct (get_coordinates_xml (VStr element) w) as [[[|p part]|e] w1];
    try reflexivity.
  unfold lift. destruct (py_index (p :: part) index) as [coords|e];
    [|reflexivity].
  change (Z.to_nat 1) with 1%nat. cbn [for_range]. unfold bind.
  destruct (py_index coords 0) as [x|e]; [|reflexivity].
  destruct (py_index coords 1) as [y|e]; reflexivity.
Qed.

Lemma scrollable_attempt_miss (element : string) (times index : Z) (w : world) :
  get_coordinates_xml (VStr element) w = (Ok [], dumped w) ->
  scrollable_attempt element times index w = (Ok None, missed w).
Proof. intros H. unfold scrollable_attempt, bind. now rewrite H. Qed.

(** X1: a single-tap [scrollable] is [click_coordinates_xml]: the same
    result and the same effects, on every device. *)
Theorem scrollable_once_is_click (element : string) (index : Z) (w : world) :
  scrollable element 1 index w = click_coordinates_xml element index w.
Proof.
  unfold scrollable, click_coordinates_xml, bind.
  rewrite (for_range_ext _ (click_coordinates_xml_attempt element index));
    [reflexivity|].
  intros w0. apply scrollable_attempt_once.
Qed.

(** X2: [scrollable] polls like the click, and at the first attempt that
    finds coordinates it taps the selected pair [times] times and returns
    [True]; with [times <= 0] it returns [True] without a tap, whatever the
    selected tuple; when fifteen attempts find nothing it returns [False]. *)
Theorem scrollable_taps (w : world) (element : string) (times index : Z) :
  (forall k part x y,
      (k < 15)%nat ->
      (forall j, (j < k)%nat -> lookup_at w (VStr element) j = Ok []) ->
      lookup_at w (VStr element) k = Ok part ->
      py_index part index = Ok [x; y] ->
      exists w',
        scrollable element times index w = (Ok true, w') /\
        trace w' = (trace w ++ misses k ++ EDump ::
                      repeat (tap x y) (Z.to_nat times))%list) /\
  (forall k part coords,
      (k < 15)%nat ->
      (forall j, (j < k)%nat -> lookup_at w (VStr element) j = Ok []) ->
      lookup_at w (VStr element) k = Ok part ->
      py_index part index = Ok coords ->
      times <= 0 ->
      exists w',
        scrollable element times index w = (Ok true, w') /\
        trace w' = (trace w ++ misses k ++ [EDump])%list) /\
  ((forall j, (j < 15)%nat -> lookup_at w (VStr element) j = Ok []) ->
   exists w',
     scrollable element times index w = (Ok false, w') /\
     trace w' = (trace w ++ misses 15)%list).
Proof.
  assert (Hmiss_step : forall j,
             lookup_at w (VStr element) j = Ok [] ->
             scrollable_attempt element times index (Nat.iter j missed w) =
             (Ok None, Nat.iter (S j) missed w)).
  { intros j Hj. apply scrollable_attempt_miss.
    rewrite get_coordinates_xml_at. now rewrite Hj. }
  split; [|split].
  - intros k part x y Hk Hmiss Hhit Hxy.
    destruct (taps_run x y (Z.to_nat times) (dumped (Nat.iter k missed w)))
      as (w' & Hrun & Htr).
    exists w'. split.
    + unfold scrollable.
      rewrite (bind_ok _ _ _ (Some true) w'); [reflexivity|].
      apply (for_range_stops _ missed 15 k); [|exact Hk| |discriminate].
      * intros j Hj. now apply Hmiss_step, Hmiss.
      * unfold scrollable_attempt.
        rewrite (bind_ok _ _ _ part (dumped (Nat.iter k missed w)))
          by (rewrite get_coordinates_xml_at; now rewrite Hhit).
        destruct part as [|p part]; [now rewrite py_index_nil in Hxy|].
        rewrite (bind_ok _ _ _ [x; y] (dumped (Nat.iter k missed w)))
          by (unfold lift; now rewrite Hxy).
        now rewrite (bind_ok _ _ _ None w' Hrun).
    + rewrite Htr, hit_trace. now rewrite <- !app_assoc.
  - intros k part coords Hk Hmiss Hhit Hc Hle.
    exists (dumped (Nat.iter k missed w)). split; [|apply hit_trace].
    unfold scrollable.
    rewrite (bind_ok _ _ _ (Some true) (dumped (Nat.iter k missed w)));
      [reflexivity|].
    apply (for_range_stops _ missed 15 k); [|exact Hk| |discriminate].
    + intros j Hj. now apply Hmiss_step, Hmiss.
    + unfold scrollable_attempt.
      rewrite (bind_ok _ _ _ part (dumped (Nat.iter k missed w)))
        by (rewrite get_coordinates_xml_at; now rewrite Hhit).
      destruct part as [|p part]; [now rewrite py_index_nil in Hc|].
      rewrite (bind_ok _ _ _ coords (dumped (Nat.iter k missed w)))
        by (unfold lift; now rewrite Hc).
      replace (Z.to_nat times) with 0%nat by lia. reflexivity.
  - intros Hmiss.
    exists (Nat.iter 15 missed w). split; [|apply misses_trace].
    unfold scrollable.
    rewrite (bind_ok _ _ _ None (Nat.iter 15 missed w)); [reflexivity|].
    apply for_range_exhausts. intros j Hj. now apply Hmiss_step, Hmiss.
Qed.

(** ** What the text check always does *)

Lemma first_true_below (P : nat -> bool) (n : nat) :
  (exists k, (k < n)%nat /\ P k = true /\
             forall j, (j < k)%nat -> P j = false) \/
  (forall j, (j < n)%nat -> P j = false).
Proof.
  induction n as [|n [(k & Hk & Hp & Hb)|Hnone]].
  - right. intros j Hj. lia.
  - left. exists k. repeat split; [lia | exact Hp | exact Hb].
  - destruct (P n) eqn:E.
    + left. exists n. repeat split; [lia | exact E | exact Hnone].
    + right. intros j Hj.
      destruct (Nat.eq_dec j n) as [->|]; [exact E | apply Hnone; lia].
Qed.


(** X4: with a budget that is zero or negative the three polling methods
    answer at once, without a dump or a sleep: [False] from
    [check_text_xml] and [check_xml_element], ["notElement"] from
    [is_element_checked], whatever the device shows. *)
Theorem empty_budget_answers_at_once (w : world) :
  (forall text retries,
      retries <= 0 -> check_text_xml text retries w = (Ok false, w)) /\
  (forall kwargs n,
      as_int (dict_get kwargs "repeat" (VInt 20)) = Ok n ->
      n <= 0 ->
      is_element_checked kwargs w = (Ok "notElement", w) /\
      check_xml_element kwargs w = (Ok false, w)).
Proof.
  split.
  - intros text retries H. unfold check_text_xml.
    replace (Z.to_nat retries) with 0%nat by lia. reflexivity.
  - intros kwargs n Hn H. split.
    + unfold is_element_checked.
      rewrite (bind_ok _ _ _ _ _ (range_len_ok _ _ w Hn)).
      replace (Z.to_nat n) with 0%nat by lia. reflexivity.
    + unfold check_xml_element.
      rewrite (bind_ok _ _ _ _ _ (range_len_ok _ _ w Hn)).
      replace (Z.to_nat n) with 0%nat by lia. reflexivity.
Qed.

(** ** Methods that never tap *)

Lemma extends_quietly_refl (w : world) : extends_quietly w w.
Proof. exists []. split; [now rewrite app_nil_r | reflexivity]. Qed.

Lemma extends_quietly_trans (w1 w2 w3 : world) :
  extends_quietly w1 w2 -> extends_quietly w2 w3 -> extends_quietly w1 w3.
Proof.
  intros (e1 & H1 & Q1) (e2 & H2 & Q2). exists (e1 ++ e2)%list. split.
  - now rewrite H2, H1, <- app_assoc.
  - now rewrite forallb_app, Q1, Q2.
Qed.

Lemma quiet_ret {A} (a : A) : quiet (ret a).
Proof. intros w. apply extends_quietly_refl. Qed.

Lemma quiet_lift {A} (r : result A) : quiet (lift r).
Proof. intros w. apply extends_quietly_refl. Qed.

Lemma quiet_raise {A} (e : exn) : quiet (@raise A e).
Proof. intros w. apply extends_quietly_refl. Qed.

Lemma quiet_bind {A B} (m : M A) (k : A -> M B) :
  quiet m -> (forall a, quiet (k a)) -> quiet (bind m k).
Proof.
  intros Hm Hk w. unfold bind. specialize (Hm w).
  destruct (m w) as [[a|e] w1]; [|exact Hm].
  eapply extends_quietly_trans; [exact Hm | apply Hk].
Qed.

Lemma quiet_for_range {A} (body : M (option A)) (n : nat) :
  quiet body -> quiet (for_range n body).
Proof.
  intros Hb. induction n as [|n IH]; [apply quiet_ret|].
  cbn [for_range]. apply quiet_bind; [exact Hb|].
  intros [a|]; [apply quiet_ret | exact IH].
Qed.

Lemma quiet_for_each {A B} (body : A -> M (option B)) (xs : list A) :
  (forall a, quiet (body a)) -> quiet (for_each xs body).
Proof.
  intros Hb. induction xs as [|x xs IH]; [apply quiet_ret|].
  cbn [for_each]. apply quiet_bind; [apply Hb|].
  intros [b|]; [apply quiet_ret | exact IH].
Qed.

Lemma quiet_sleep (seconds : Q) : quiet (sleep seconds).
Proof. intros w. exists [ESleep seconds]. split; reflexivity. Qed.

Lemma quiet_dump_xml : quiet dump_xml.
Proof. intros w. exists [EDump]. split; reflexivity. Qed.

Lemma quiet_get_coordinates_xml (element : pyval) :
  quiet (get_coordinates_xml element).
Proof.
  intros w. rewrite get_coordinates_xml_run. cbn [snd].
  apply quiet_dump_xml.
Qed.

Lemma find_xml_world (element : pyval) (path_file : string) (index : pyval)
      (w : world) :
  snd (find_xml element path_file index w) = w.
Proof.
  destruct (text_files w path_file) as [bytes|] eqn:E.
  - now rewrite (find_xml_run _ _ _ _ _ E).
  - now rewrite (find_xml_no_file _ _ _ _ E).
Qed.

Lemma quiet_find_xml (element : pyval) (path_file : string) (index : pyval) :
  quiet (find_xml element path_file index).
Proof. intros w. rewrite find_xml_world. apply extends_quietly_refl. Qed.

Lemma quiet_read_text (path : string) : quiet (read_text path).
Proof.
  intros w. unfold read_text.
  destruct (text_files w path); apply extends_quietly_refl.
Qed.


(** ** The dump file *)

Lemma read_newlines_no_cr (s : string) :
  no_char CR (TextIO.read_newlines s) = true /\
  forall c, no_char CR (TextIO.read_newlines (String c s)) = true.
Proof.
  induction s as [|a s [IH1 IH2]].
  - split; [reflexivity|]. intros c. cbn [TextIO.read_newlines].
    destruct (Ascii.eqb c CR) eqn:E; [reflexivity|].
    cbn [no_char]. now rewrite E.
  - split; [apply IH2|]. intros c.
    change (TextIO.read_newlines (String c (String a s)))
      with (if Ascii.eqb c CR
            then String LF (if Ascii.eqb a LF
                            then TextIO.read_newlines s
                            else TextIO.read_newlines (String a s))
            else String c (TextIO.read_newlines (String a s))).
    destruct (Ascii.eqb c CR) eqn:E.
    + cbn [no_char]. change (Ascii.eqb LF CR) with false. cbn [negb andb].
      destruct (Ascii.eqb a LF); [exact IH1 | apply IH2].
    + cbn [no_char]. rewrite E. cbn [negb andb]. apply IH2.
Qed.

(** X6: what is read back from the dump file never holds a carriage
    return, and it is the hierarchy that was dumped exactly when the
    hierarchy holds none (on either platform). *)
Theorem dump_then_read (w : world) :
  exists s,
    bind dump_xml read_text w = (Ok s, dumped w) /\
    no_char CR s = true /\
    (s = hierarchy w (dumps_taken w) <->
     no_char CR (hierarchy w (dumps_taken w)) = true).
Proof.
  exists (TextIO.read_newlines (dump_bytes w)). split; [|split; [|split]].
  - unfold bind.
    change (dump_xml w) with (Ok (resource_path "window_dump_0.xml"), dumped w).
    cbv beta iota. unfold read_text. now rewrite dumped_file.
  - apply read_newlines_no_cr.
  - intros H. rewrite <- H. apply read_newlines_no_cr.
  - intros H. now apply read_write_newlines.
Qed.

(** ** What [find_xml] and the coordinate list keep *)

Lemma map_result_inv {A B} (f : A -> result B) (l : list A) (bs : list B) :
  map_result f l = Ok bs -> Forall2 (fun a b => f a = Ok b) l bs.
Proof.
  revert bs; induction l as [|a l IH]; intros bs H.
  - injection H as <-. constructor.
  - cbn [map_result] in H. destruct (f a) as [b|e] eqn:E; [|discriminate].
    destruct (map_result f l) as [bs'|e]; [|discriminate].
    injection H as <-. constructor; [exact E | now apply IH].
Qed.

Lemma parse_bounds_inv (items : list xitem) (coords : list (list Z)) :
  parse_bounds items = Ok coords -> Forall2 tuple_of items coords.
Proof.
  unfold parse_bounds. intros H.
  destruct (map_result bounds_fields items) as [fl|e] eqn:E; [|discriminate].
  apply map_result_inv in E. apply map_result_inv in H.
  revert coords H. induction E as [|item fields items fl Hf _ IH];
    intros coords H; inversion H as [|? t ? ts Ht Hts]; subst; constructor.
  - now exists fields.
  - now apply IH.
Qed.


(** X8: the coordinate list follows the matches one for one and in
    document order: when lxml returns [items] and a lookup returns
    [coords], the [i]-th tuple is the one computed from the [i]-th item (so
    both have the same length); and the node [find_xml] returns is [None]
    exactly when nothing matched. *)
Theorem coordinates_follow_matches (items : list xitem) :
  (forall element w coords,
      xpath_on (dump_bytes w) element = Ok (XItems items) ->
      fst (get_coordinates_xml element w) = Ok coords ->
      Forall2 tuple_of items coords) /\
  (forall element path_file index w bytes coords node,
      text_files w path_file = Some bytes ->
      xpath_on bytes element = Ok (XItems items) ->
      fst (find_xml element path_file index w) = Ok (coords, node) ->
      Forall2 tuple_of items coords /\ (node = None <-> items = [])).
Proof.
  split.
  - intros element w coords Hx H.
    rewrite get_coordinates_xml_run, Hx in H. cbn [fst] in H.
    now apply parse_bounds_inv.
  - intros element path_file index w bytes coords node Hf Hx H.
    rewrite (find_xml_run _ _ _ _ _ Hf), Hx in H. cbn [fst] in H.
    unfold coords_of in H. cbn [xiter] in H.
    destruct (parse_bounds items) as [cs|e] eqn:Hp; [|discriminate].
    apply parse_bounds_inv in Hp.
    destruct items as [|item items].
    + cbn [xtruthy] in H. injection H as <- <-. split; [exact Hp | tauto].
    + cbn [xtruthy] in H.
      destruct (xgetitem (XItems (item :: items)) index) as [n|e];
        [|discriminate].
      injection H as <- <-. split; [exact Hp|].
      split; intros; discriminate.
Qed.

(** X9: only the first corner of the bounds is read.  Whatever follows
    ["[a,b]["] in the attribute (a second pair, garbage, nothing), both
    lookups return [(a, b)] for the element. *)
Theorem second_corner_ignored (items : list xitem) (pairs : list (Z * Z)) :
  Forall2 first_pair_bounded items pairs ->
  lookups_yield items (Ok (map pair_tuple pairs)).
Proof.
  intros H. apply lookups_yield_parse. unfold parse_bounds.
  rewrite (map_result_ok bounds_fields items
             (map (fun ab => [PyStr.of_int (fst ab); PyStr.of_int (snd ab)]) pairs)).
  - apply map_result_ok. clear H.
    induction pairs as [|ab pairs IH]; constructor;
      [apply int_tuple_pair | exact IH].
  - induction H as [|item ab items pairs Hw _ IH]; constructor; [|exact IH].
    destruct Hw as (attrib & rest & -> & Hs).
    apply (bounds_fields_numerals attrib _ _ rest);
      [exact Hs | apply numeral_of_int ..].
Qed.

(** ** Where a match can be *)

Lemma row_hits_in (row : list bool) (x0 x : Z) :
  In x (row_hits row x0) -> x0 <= x < x0 + size row.
Proof.
  revert x0; induction row as [|b row IH]; intros x0 H; [inversion H|].
  unfold size in *. cbn [row_hits List.length] in *.
  apply in_app_or in H as [H|H].
  - destruct b; [|inversion H]. destruct H as [<-|[]]. lia.
  - apply IH in H. lia.
Qed.

Lemma where_go_in (mask : list (list bool)) (c y0 y x : Z) :
  Forall (fun row => size row <= c) mask ->
  In (y, x) (where_go mask y0) ->
  y0 <= y < y0 + size mask /\ 0 <= x < c.
Proof.
  intros Hc. revert y0; induction Hc as [|row mask Hrow _ IH]; intros y0 H;
    [inversion H|].
  unfold size in *. cbn [where_go List.length] in *.
  apply in_app_or in H as [H|H].
  - apply in_map_iff in H as (x' & E & Hx). injection E as <- <-.
    apply row_hits_in in Hx. unfold size in Hx. lia.
  - apply IH in H. lia.
Qed.

Lemma located_inv (res : list (list Q)) (threshold : Q) (target : image)
      (x y : Z) :
  located res threshold target = VTuple [x; y] ->
  exists y0 x0 rest,
    where_go (ge_mask res threshold) 0 = (y0, x0) :: rest /\
    x = x0 + shape1 target / 2 /\ y = y0 + shape0 target / 2.
Proof.
  unfold located.
  destruct (where_go (ge_mask res threshold) 0) as [|[y0 x0] rest];
    [discriminate|].
  intros H. injection H as <- <-. now exists y0, x0, rest.
Qed.

Lemma half_inside (n : Z) : 1 <= n -> 0 <= n / 2 < n.
Proof.
  intros H. split; [apply Z.div_pos; lia | apply Z.div_lt; lia].
Qed.

(** X10: the point [get_coordinates_image] returns is a pixel of the
    screenshot: when the reference image is not empty and the matrix of
    scores has the size OpenCV gives it (at most [H - h + 1] rows of at
    most [W - w + 1] scores), the returned [(x, y)] has [0 <= x < W] and
    [0 <= y < H]. *)
Theorem match_centre_inside (target_image_path : string) (threshold : Q)
        (w : world) (target : image) (res : list (list Q)) (x y : Z) :
  image_files w target_image_path = Some target ->
  matchTemplate (screen w (shots_taken w)) target = Ok res ->
  1 <= shape0 target -> 1 <= shape1 target ->
  size res <= shape0 (screen w (shots_taken w)) - shape0 target + 1 ->
  Forall (fun row => size row <=
                     shape1 (screen w (shots_taken w)) - shape1 target + 1) res ->
  fst (get_coordinates_image target_image_path threshold w) =
    Ok (VTuple [x; y]) ->
  0 <= x < shape1 (screen w (shots_taken w)) /\
  0 <= y < shape0 (screen w (shots_taken w)).
Proof.
  intros Ht Hres Hh Hw Hrows Hcols H.
  rewrite get_coordinates_image_run, Ht, Hres in H. cbn [fst] in H.
  injection H as H.
  apply located_inv in H as (y0 & x0 & rest & Hgo & -> & ->).
  destruct (where_go_in (ge_mask res threshold)
              (shape1 (screen w (shots_taken w)) - shape1 target + 1) 0 y0 x0)
    as [Hy Hx].
  - unfold ge_mask. apply Forall_map.
    eapply Forall_impl; [|exact Hcols].
    intros row Hr. unfold size in *. now rewrite length_map.
  - rewrite Hgo. now left.
  - assert (size (ge_mask res threshold) = size res)
      by (unfold size, ge_mask; now rewrite length_map).
    pose proof (half_inside _ Hh). pose proof (half_inside _ Hw). lia.
Qed.

Lemma row_hits_mono (r1 r2 : list bool) (x0 h1 : Z) (t1 : list Z) :
  Forall2 (fun a b => a = true -> b = true) r1 r2 ->
  row_hits r1 x0 = h1 :: t1 ->
  exists h2 t2, row_hits r2 x0 = h2 :: t2 /\ h2 <= h1.
Proof.
  intros HF. revert x0; induction HF as [|a b r1 r2 Hab _ IH]; intros x0 H;
    [discriminate|].
  assert (Hlow : x0 <= h1).
  { assert (Hin : In h1 (row_hits (a :: r1) x0)) by (rewrite H; now left).
    apply row_hits_in in Hin. lia. }
  cbn [row_hits] in *. destruct b.
  - cbn [app]. eexists x0, _. split; [reflexivity | exact Hlow].
  - destruct a; [now specialize (Hab eq_refl)|].
    cbn [app] in *. exact (IH _ H).
Qed.

Lemma row_hits_mono_nil (r1 r2 : list bool) (x0 : Z) :
  Forall2 (fun a b => a = true -> b = true) r1 r2 ->
  row_hits r2 x0 = [] -> row_hits r1 x0 = [].
Proof.
  intros HF H2. destruct (row_hits r1 x0) as [|h1 t1] eqn:E; [reflexivity|].
  destruct (row_hits_mono _ _ _ _ _ HF E) as (h2 & t2 & H & _).
  rewrite H2 in H. discriminate.
Qed.

Lemma where_go_low (mask : list (list bool)) (y0 y x : Z) :
  In (y, x) (where_go mask y0) -> y0 <= y.
Proof.
  revert y0; induction mask as [|row mask IH]; intros y0 H; [inversion H|].
  cbn [where_go] in H. apply in_app_or in H as [H|H].
  - apply in_map_iff in H as (x' & E & _). injection E as <- <-. lia.
  - apply IH in H. lia.
Qed.

Lemma where_go_mono (m1 m2 : list (list bool)) (y0 y1 x1 : Z)
      (t1 : list (Z * Z)) :
  Forall2 (Forall2 (fun a b => a = true -> b = true)) m1 m2 ->
  where_go m1 y0 = (y1, x1) :: t1 ->
  exists y2 x2 t2,
    where_go m2 y0 = (y2, x2) :: t2 /\ (y2 < y1 \/ (y2 = y1 /\ x2 <= x1)).
Proof.
  intros HF. revert y0; induction HF as [|r1 r2 m1 m2 Hr _ IH]; intros y0 H;
    [discriminate|].
  cbn [where_go] in *.
  destruct (row_hits r2 0) as [|h2 t2] eqn:E2.
  - rewrite (row_hits_mono_nil _ _ _ Hr E2) in H. cbn [map app] in *.
    exact (IH _ H).
  - cbn [map app]. exists y0, h2. eexists. split; [reflexivity|].
    destruct (row_hits r1 0) as [|h1 t1'] eqn:E1.
    + cbn [map app] in H. left.
      assert (Hin : In (y1, x1) (where_go m1 (y0 + 1))) by (rewrite H; now left).
      apply where_go_low in Hin. lia.
    + cbn [map app] in H. injection H as <- <- _.
      destruct (row_hits_mono _ _ _ _ _ Hr E1) as (h & t & Hh & Hle).
      rewrite E2 in Hh. injection Hh as <- _. right. split; [reflexivity | exact Hle].
Qed.

Lemma ge_mask_mono (res : list (list Q)) (t1 t2 : Q) :
  (t2 <= t1)%Q ->
  Forall2 (Forall2 (fun a b => a = true -> b = true))
          (ge_mask res t1) (ge_mask res t2).
Proof.
  intros Hle. unfold ge_mask.
  induction res as [|row res IH]; cbn [map]; constructor; [|exact IH].
  clear IH. induction row as [|s row IH]; cbn [map]; constructor; [|exact IH].
  intros H. apply Qle_bool_iff in H. apply Qle_bool_iff.
  now apply (Qle_trans _ t1).
Qed.

(** X11: lowering the threshold never loses a match.  If the lookup finds
    the image at [(x1, y1)] with a threshold, then on the same screen every
    lower threshold finds it too, at that place or at one that comes
    earlier in the scan (a row above, or further left in the same row). *)
Theorem lower_threshold_keeps_match (target_image_path : string) (t1 t2 : Q)
        (w : world) (x1 y1 : Z) :
  (t2 <= t1)%Q ->
  fst (get_coordinates_image target_image_path t1 w) = Ok (VTuple [x1; y1]) ->
  exists x2 y2,
    fst (get_coordinates_image target_image_path t2 w) = Ok (VTuple [x2; y2]) /\
    (y2 < y1 \/ (y2 = y1 /\ x2 <= x1)).
Proof.
  intros Hle H. rewrite !get_coordinates_image_run in *. cbn [fst] in *.
  destruct (image_files w target_image_path) as [target|]; [|discriminate].
  destruct (matchTemplate (screen w (shots_taken w)) target) as [res|e];
    [|discriminate].
  injection H as H.
  apply located_inv in H as (y0 & x0 & rest & Hgo & -> & ->).
  destruct (where_go_mono _ _ _ _ _ _ (ge_mask_mono res t1 t2 Hle) Hgo)
    as (y2 & x2 & rest2 & Hgo2 & Hord).
  exists (x2 + shape1 target / 2), (y2 + shape0 target / 2). split.
  - unfold located. now rewrite Hgo2.
  - lia.
Qed.

(** X12: when the reference image cannot be read, the image lookup and the
    image click raise [cv2.error] (they do not answer [False]), and they do
    so after the screenshot was taken: the screenshot file holds the
    current screen. *)
Theorem unreadable_reference_raises (image_path : string) (threshold : Q)
        (w : world) :
  image_files w image_path = None ->
  get_coordinates_image image_path threshold w =
    (Raise Cv2Error, snd (screen_capture w)) /\
  click_coordinates_image image_path w =
    (Raise Cv2Error, snd (screen_capture w)) /\
  image_files (snd (screen_capture w)) (resource_path "screenshot_window_0.png") =
    Some (screen w (shots_taken w)) /\
  trace (snd (screen_capture w)) =
    (trace w ++ [EScreenshot (resource_path "screenshot_window_0.png")])%list.
Proof.
  intros H. split; [|split; [|split]].
  - now rewrite get_coordinates_image_run, H.
  - unfold click_coordinates_image, bind.
    now rewrite get_coordinates_image_run, H.
  - cbn [screen_capture snd image_files]. now rewrite String.eqb_refl.
  - reflexivity.
Qed.

(** ** The payload of the custom keyboard *)

Lemma list_ind3 {A} (P : list A -> Prop) :
  P [] -> (forall a, P [a]) -> (forall a b, P [a; b]) ->
  (forall a b c l, P l -> P (a :: b :: c :: l)) ->
  forall l, P l.
Proof.
  intros H0 H1 H2 H3.
  refine (fix F (l : list A) : P l :=
            match l with
            | [] => H0
            | [a] => H1 a
            | [a; b] => H2 a b
            | a :: b :: c :: l' => H3 a b c l' (F l')
            end).
Qed.

Lemma sextet_table :
  forallb (fun i => (unsextet (Codec.sextet i) =? i) &&
                    negb (Ascii.eqb (Codec.sextet i) "=") &&
                    is_b64_char (Codec.sextet i))
          (map Z.of_nat (seq 0 64)) = true.
Proof. vm_compute. reflexivity. Qed.

Lemma sextet_facts (i : Z) :
  0 <= i < 64 ->
  unsextet (Codec.sextet i) = i /\
  Ascii.eqb (Codec.sextet i) "=" = false /\
  is_b64_char (Codec.sextet i) = true.
Proof.
  intros Hi. pose proof sextet_table as T.
  rewrite forallb_forall in T. specialize (T i).
  assert (Hin : In i (map Z.of_nat (seq 0 64))).
  { apply in_map_iff. exists (Z.to_nat i). split; [lia|].
    apply in_seq. lia. }
  apply T in Hin. apply andb_prop in Hin as [Hin H3].
  apply andb_prop in Hin as [H1 H2].
  apply Z.eqb_eq in H1. apply negb_true_iff in H2. auto.
Qed.

Lemma b64decode_encode (bs : list Z) :
  Forall byte_range bs -> b64decode (Codec.b64encode bs) = bs.
Proof.
  induction bs as [|a|a b|a b c bs IH] using list_ind3; intros HF.
  - reflexivity.
  - inversion HF as [|? ? Ha _]; subst. unfold byte_range in Ha.
    cbn [Codec.b64encode b64decode].
    destruct (sextet_facts (a / 4)) as (E0 & _ & _);
      [Z.div_mod_to_equations; lia|].
    destruct (sextet_facts (a mod 4 * 16)) as (E1 & _ & _);
      [Z.div_mod_to_equations; lia|].
    rewrite E0, E1. change (Ascii.eqb "=" "=") with true. cbv iota.
    f_equal. Z.div_mod_to_equations; lia.
  - inversion HF as [|? ? Ha HF']; subst.
    inversion HF' as [|? ? Hb _]; subst. unfold byte_range in Ha, Hb.
    cbn [Codec.b64encode b64decode].
    destruct (sextet_facts (a / 4)) as (E0 & _ & _);
      [Z.div_mod_to_equations; lia|].
    destruct (sextet_facts (a mod 4 * 16 + b / 16)) as (E1 & _ & _);
      [Z.div_mod_to_equations; lia|].
    destruct (sextet_facts (b mod 16 * 4)) as (E2 & P2 & _);
      [Z.div_mod_to_equations; lia|].
    rewrite E0, E1, E2, P2. change (Ascii.eqb "=" "=") with true. cbv iota.
    f_equal; [|f_equal]; Z.div_mod_to_equations; lia.
  - inversion HF as [|? ? Ha HF1]; subst.
    inversion HF1 as [|? ? Hb HF2]; subst.
    inversion HF2 as [|? ? Hc HF3]; subst.
    unfold byte_range in Ha, Hb, Hc.
    cbn [Codec.b64encode b64decode].
    destruct (sextet_facts (a / 4)) as (E0 & _ & _);
      [Z.div_mod_to_equations; lia|].
    destruct (sextet_facts (a mod 4 * 16 + b / 16)) as (E1 & _ & _);
      [Z.div_mod_to_equations; lia|].
    destruct (sextet_facts (b mod 16 * 4 + c / 64)) as (E2 & P2 & _);
      [Z.div_mod_to_equations; lia|].
    destruct (sextet_facts (c mod 64)) as (E3 & P3 & _);
      [Z.div_mod_to_equations; lia|].
    rewrite E0, E1, E2, E3, P2, P3. cbv iota. rewrite (IH HF3).
    f_equal; [|f_equal; [|f_equal]]; Z.div_mod_to_equations; lia.
Qed.

Lemma b64encode_chars (bs : list Z) :
  Forall byte_range bs ->
  all_chars is_b64_char (Codec.b64encode bs) = true /\
  String.length (Codec.b64encode bs) = (4 * ((List.length bs + 2) / 3))%nat.
Proof.
  induction bs as [|a|a b|a b c bs IH] using list_ind3; intros HF.
  - split; reflexivity.
  - inversion HF as [|? ? Ha _]; subst. unfold byte_range in Ha.
    cbn [Codec.b64encode all_chars]. split; [|reflexivity].
    destruct (sextet_facts (a / 4)) as (_ & _ & ->);
      [Z.div_mod_to_equations; lia|].
    destruct (sextet_facts (a mod 4 * 16)) as (_ & _ & ->);
      [Z.div_mod_to_equations; lia|].
    reflexivity.
  - inversion HF as [|? ? Ha HF']; subst.
    inversion HF' as [|? ? Hb _]; subst. unfold byte_range in Ha, Hb.
    cbn [Codec.b64encode all_chars]. split; [|reflexivity].
    destruct (sextet_facts (a / 4)) as (_ & _ & ->);
      [Z.div_mod_to_equations; lia|].
    destruct (sextet_facts (a mod 4 * 16 + b / 16)) as (_ & _ & ->);
      [Z.div_mod_to_equations; lia|].
    destruct (sextet_facts (b mod 16 * 4)) as (_ & _ & ->);
      [Z.div_mod_to_equations; lia|].
    reflexivity.
  - inversion HF as [|? ? Ha HF1]; subst.
    inversion HF1 as [|? ? Hb HF2]; subst.
    inversion HF2 as [|? ? Hc HF3]; subst.
    unfold byte_range in Ha, Hb, Hc.
    destruct (IH HF3) as [IHc IHl].
    cbn [Codec.b64encode all_chars String.length List.length]. split.
    + destruct (sextet_facts (a / 4)) as (_ & _ & ->);
        [Z.div_mod_to_equations; lia|].
      destruct (sextet_facts (a mod 4 * 16 + b / 16)) as (_ & _ & ->);
        [Z.div_mod_to_equations; lia|].
      destruct (sextet_facts (b mod 16 * 4 + c / 64)) as (_ & _ & ->);
        [Z.div_mod_to_equations; lia|].
      destruct (sextet_facts (c mod 64)) as (_ & _ & ->);
        [Z.div_mod_to_equations; lia|].
      exact IHc.
    + rewrite IHl.
      replace (S (S (S (List.length bs))) + 2)%nat
        with (List.length bs + 2 + 1 * 3)%nat by lia.
      rewrite Nat.div_add by lia. lia.
Qed.

Lemma ascii_code_range (c : ascii) : 0 <= Z.of_N (N_of_ascii c) < 256.
Proof. pose proof (N_ascii_bounded c). lia. Qed.

Lemma utf8_range (s : string) : Forall byte_range (Codec.utf8 s).
Proof.
  induction s as [|c s IH]; [constructor|].
  cbn [Codec.utf8]. apply Forall_app. split; [|exact IH].
  unfold Codec.utf8_char. pose proof (ascii_code_range c) as Hc.
  destruct (Z.of_N (N_of_ascii c) <? 128) eqn:E.
  - constructor; [exact Hc | constructor].
  - apply Z.ltb_ge in E. unfold byte_range.
    constructor; [Z.div_mod_to_equations; lia|].
    constructor; [Z.div_mod_to_equations; lia | constructor].
Qed.

Lemma utf8_decode_utf8 (s : string) : utf8_decode (Codec.utf8 s) = s.
Proof.
  induction s as [|c s IH]; [reflexivity|].
  cbn [Codec.utf8]. unfold Codec.utf8_char.
  pose proof (ascii_code_range c) as Hc.
  destruct (Z.of_N (N_of_ascii c) <? 128) eqn:E.
  - cbn [app utf8_decode]. rewrite E, IH, N2Z.id, ascii_N_embedding.
    reflexivity.
  - apply Z.ltb_ge in E. cbn [app utf8_decode].
    replace (192 + Z.of_N (N_of_ascii c) / 64 <? 128) with false
      by (symmetry; apply Z.ltb_ge; Z.div_mod_to_equations; lia).
    rewrite IH.
    replace ((192 + Z.of_N (N_of_ascii c) / 64 - 192) * 64 +
             (128 + Z.of_N (N_of_ascii c) mod 64 - 128))
      with (Z.of_N (N_of_ascii c)) by (Z.div_mod_to_equations; lia).
    now rewrite N2Z.id, ascii_N_embedding.
Qed.

(** The trace of [send_text]. *)
Lemma send_text_run (text : string) (use_vn_keyboard slow_typing : bool)
      (w : world) :
  exists w',
    send_text text use_vn_keyboard slow_typing w = (Ok tt, w') /\
    trace w' =
      (trace w ++ EShell (ime_command use_vn_keyboard) :: ESleep 1
         :: map EShell (text_commands use_vn_keyboard slow_typing text))%list.
Proof.
  set (w1 := snd (sleep 1 (snd (shell (ime_command use_vn_keyboard) w)))).
  assert (Htr1 : trace w1 =
                 (trace w ++ [EShell (ime_command use_vn_keyboard); ESleep 1])%list).
  { subst w1. cbn [shell sleep emit snd trace]. now rewrite <- app_assoc. }
  destruct slow_typing.
  - destruct (for_each_shell
                (fun c => text_command use_vn_keyboard (String c ""))
                (list_ascii_of_string text) w1) as (w' & Hrun & Htr).
    exists w'. split.
    + replace (send_text text use_vn_keyboard true w)
        with (bind (for_each (list_ascii_of_string text)
                      (fun a => shell (text_command use_vn_keyboard (String a "")) ;;;
                                ret (@None unit)))
                   (fun _ => ret tt) w1)
        by (destruct use_vn_keyboard; reflexivity).
      now rewrite (bind_ok _ _ _ None w' Hrun).
    + rewrite Htr, Htr1, <- app_assoc. unfold text_commands.
      now rewrite map_map.
  - exists (snd (shell (text_command use_vn_keyboard text) w1)). split.
    + destruct use_vn_keyboard; reflexivity.
    + cbn [shell emit snd trace]. rewrite Htr1, <- app_assoc. reflexivity.
Qed.

Lemma payload_facts (s : string) :
  text_command true s = (broadcast_prefix ++ Codec.b64encode (Codec.utf8 s))%string /\
  all_chars is_b64_char (Codec.b64encode (Codec.utf8 s)) = true /\
  utf8_decode (b64decode (Codec.b64encode (Codec.utf8 s))) = s.
Proof.
  split; [reflexivity|]. split.
  - apply b64encode_chars, utf8_range.
  - rewrite b64decode_encode by apply utf8_range. apply utf8_decode_utf8.
Qed.



(** ** The words of the shell commands *)

Lemma split_words (word : string) (words : list string) :
  Forall (fun s => no_char " " s = true) (word :: words) ->
  PyStr.split " " (String.concat " " (word :: words)) = word :: words.
Proof.
  revert word; induction words as [|next words IH]; intros word HF.
  - inversion HF as [|? ? Hw _]; subst. cbn [String.concat].
    unfold PyStr.split. now rewrite split_go_nosep.
  - inversion HF as [|? ? Hw HF']; subst.
    change (String.concat " " (word :: next :: words))
      with (word ++ " " ++ String.concat " " (next :: words))%string.
    unfold PyStr.split. rewrite split_go_sep by exact Hw.
    cbn [append]. f_equal. exact (IH next HF').
Qed.

Lemma numeral_no_space (z : Z) : no_char " " (PyStr.of_int z) = true.
Proof. apply numeral_no_char; [reflexivity | apply numeral_of_int]. Qed.

(** X15: the command of a tap always has four words: for every pair of
    integers, [click] sends one shell command that splits on spaces into
    [input], [tap] and two numerals, and the numerals read back as the two
    coordinates (a negative one with its minus sign). *)
Theorem tap_command_words (x y : Z) (w : world) :
  exists w' command sx sy,
    click x y w = (Ok tt, w') /\
    trace w' = (trace w ++ [EShell command])%list /\
    PyStr.split " " command = ["input"; "tap"; sx; sy] /\
    PyStr.int sx = Some x /\ PyStr.int sy = Some y.
Proof.
  exists (snd (click x y w)),
         ("input tap " ++ PyStr.of_int x ++ " " ++ PyStr.of_int y)%string,
         (PyStr.of_int x), (PyStr.of_int y).
  split; [reflexivity|]. split; [reflexivity|].
  split; [|split; apply int_of_int].
  change ("input tap " ++ PyStr.of_int x ++ " " ++ PyStr.of_int y)%string
    with (String.concat " " ["input"; "tap"; PyStr.of_int x; PyStr.of_int y]).
  apply split_words.
  repeat constructor; apply numeral_no_space.
Qed.

Lemma permissions_no_space :
  Forall (fun s => no_char " " s = true) permissions.
Proof. repeat constructor. Qed.

(** X16: the commands of [open_link] and [grant_permissions] have the
    words they are meant to have when the arguments hold no space.
    [open_link] sends one command of six words ending in the URL, and a
    seventh word, the package, only when a non-empty package is given (an
    empty name counts as none); [grant_permissions] sends one
    [pm grant <package> <permission>] per permission of its list, in the
    order of the list. *)
Theorem executor_command_words (w : world) :
  (forall url package_name,
      no_char " " url = true ->
      match package_name with
      | Some p => no_char " " p = true
      | None => True
      end ->
      exists w' command,
        open_link url package_name w = (Ok tt, w') /\
        trace w' = (trace w ++ [EShell command])%list /\
        PyStr.split " " command =
          (["am"; "start"; "-a"; "android.intent.action.VIEW"; "-d"; url] ++
           match package_name with
           | Some p => if String.eqb p "" then [] else [p]
           | None => []
           end)%list) /\
  (forall package_name,
      no_char " " package_name = true ->
      exists w' commands,
        grant_permissions package_name w = (Ok tt, w') /\
        trace w' = (trace w ++ map EShell commands)%list /\
        Forall2 (fun command permission =>
                   PyStr.split " " command =
                   ["pm"; "grant"; package_name; permission])
                commands permissions).
Proof.
  split.
  - intros url package_name Hurl Hp.
    assert (Hbase :
              PyStr.split " " ("am start -a android.intent.action.VIEW -d " ++ url) =
              ["am"; "start"; "-a"; "android.intent.action.VIEW"; "-d"; url]).
    { change ("am start -a android.intent.action.VIEW -d " ++ url)%string
        with (String.concat " "
                ["am"; "start"; "-a"; "android.intent.action.VIEW"; "-d"; url]).
      apply split_words. repeat constructor. exact Hurl. }
    destruct package_name as [p|].
    + destruct (String.eqb p "") eqn:E.
      * eexists _, _. unfold open_link. rewrite E. cbn [negb].
        split; [reflexivity|]. split; [reflexivity|].
        rewrite Hbase. now rewrite app_nil_r.
      * eexists _, _. unfold open_link. rewrite E. cbn [negb].
        split; [reflexivity|]. split; [reflexivity|].
        change (("am start -a android.intent.action.VIEW -d " ++ url) ++ " " ++ p)%string
          with (String.concat " "
                  ["am"; "start"; "-a"; "android.intent.action.VIEW"; "-d"; url; p]).
        apply split_words. repeat constructor; assumption.
    + eexists _, _. split; [reflexivity|]. split; [reflexivity|].
      rewrite Hbase. now rewrite app_nil_r.
  - intros package_name Hpkg.
    destruct (for_each_shell
                (fun permission =>
                   ("pm grant " ++ package_name ++ " " ++ permission)%string)
                permissions w) as (w' & Hrun & Htr).
    exists w', (map (fun permission =>
                       ("pm grant " ++ package_name ++ " " ++ permission)%string)
                    permissions).
    split; [|split].
    + unfold grant_permissions. now rewrite (bind_ok _ _ _ None w' Hrun).
    + rewrite Htr. now rewrite map_map.
    + clear Hrun Htr. pose proof permissions_no_space as HF.
      induction HF as [|permission l Hperm _ IH]; cbn [map]; constructor;
        [|exact IH].
      change ("pm grant " ++ package_name ++ " " ++ permission)%string
        with (String.concat " " ["pm"; "grant"; package_name; permission]).
      apply split_words. repeat constructor; assumption.
Qed.

(** ** The name [is_element_checked] returns *)

Lemma for_range_some {A} (P : A -> Prop) (body : M (option A)) (n : nat)
      (w w' : world) (a : A) :
  (forall w0 a0 w1, body w0 = (Ok (Some a0), w1) -> P a0) ->
  for_range n body w = (Ok (Some a), w') -> P a.
Proof.
  intros Hb. revert w; induction n as [|n IH]; intros w H; [discriminate|].
  cbn [for_range] in H. unfold bind in H.
  destruct (body w) as [[[a0|]|e] w1] eqn:E.
  - injection H as <- _. exact (Hb _ _ _ E).
  - exact (IH _ H).
  - discriminate.
Qed.

Lemma for_each_some {A B} (P : B -> Prop) (body : A -> M (option B))
      (xs : list A) (w w' : world) (b : B) :
  (forall x w0 b0 w1, In x xs -> body x w0 = (Ok (Some b0), w1) -> P b0) ->
  for_each xs body w = (Ok (Some b), w') -> P b.
Proof.
  revert w; induction xs as [|x xs IH]; intros w Hb H; [discriminate|].
  cbn [for_each] in H. unfold bind in H.
  destruct (body x w) as [[[b0|]|e] w1] eqn:E.
  - injection H as <- _. apply (Hb x w b0 w1); [now left | exact E].
  - apply (IH w1); [|exact H].
    intros x' w0 b1 w2 Hin. apply Hb. now right.
  - discriminate.
Qed.

Lemma element_item_some (path : string) (index : pyval)
      (item : string * pyval) (w w' : world) (name : string) :
  is_element_checked_item path index item w = (Ok (Some name), w') ->
  name = fst item /\ exists e, snd item = VStr e.
Proof.
  destruct item as [element_name value]. unfold is_element_checked_item, bind.
  destruct (text_files w path) as [bytes|] eqn:E.
  - rewrite (find_xml_run _ _ _ _ _ E).
    destruct value; cbn [xpath_on];
      try (intros H; discriminate H).
    destruct (lxml_xpath bytes s) as [v|e]; [|intros H; discriminate H].
    destruct (coords_of v) as [coords|e]; [|intros H; discriminate H].
    intros H. split; [|now exists s].
    destruct (xtruthy v).
    + destruct (xgetitem v index); [|discriminate H].
      cbn [fst] in H. destruct coords; [discriminate H|]. now injection H as <-.
    + cbn [fst] in H. destruct coords; [discriminate H|]. now injection H as <-.
  - rewrite (find_xml_no_file _ _ _ _ E). intros H. discriminate H.
Qed.


(** ** The selector methods *)

Lemma ui_misses_S (text : string) (k : nat) :
  ui_misses text (S k) =
  ([UExists (ByText text); USleep (1 # 2)] ++ ui_misses text k)%list.
Proof. reflexivity. Qed.

Lemma check_text_loop (text : string) (n : nat) (s : ui_state) :
  (exists k,
      (k < n)%nat /\
      present (calls s + k) (ByText text) = true /\
      (forall j, (j < k)%nat -> present (calls s + j) (ByText text) = false) /\
      u_for_range n (check_text_attempt text) s =
      (inl (Some true),
       mkUi (calls s + S k)
            (ui_trace s ++ ui_misses text k ++ [UExists (ByText text)]))) \/
  ((forall j, (j < n)%nat -> present (calls s + j) (ByText text) = false) /\
   u_for_range n (check_text_attempt text) s =
   (inl None, mkUi (calls s + n) (ui_trace s ++ ui_misses text n))).
Proof.
  revert s; induction n as [|n IH]; intros s.
  - right. split; [intros j Hj; lia|].
    destruct s as [c t]. cbn. now rewrite Nat.add_0_r, app_nil_r.
  - destruct (present (calls s) (ByText text)) eqn:E.
    + left. exists 0%nat. rewrite Nat.add_0_r.
      split; [lia|]. split; [exact E|]. split; [intros j Hj; lia|].
      cbn [u_for_range]. unfold u_bind, check_text_attempt, u_bind,
        device_exists. rewrite E. cbn. now rewrite Nat.add_1_r.
    + assert (Hstep : u_for_range (S n) (check_text_attempt text) s =
                      u_for_range n (check_text_attempt text) (ui_missed text s)).
      { cbn [u_for_range]. unfold u_bind at 1.
        unfold check_text_attempt, u_bind, device_exists. rewrite E.
        cbn [u_emit u_ret calls ui_trace]. unfold ui_missed.
        now rewrite <- app_assoc. }
      rewrite Hstep.
      destruct (IH (ui_missed text s)) as [(k & Hk & Hp & Hb & Hrun)|[Hb Hrun]].
      * left. exists (S k). cbn [ui_missed calls ui_trace] in *.
        split; [lia|].
        split; [now rewrite Nat.add_succ_r|].
        split.
        -- intros j Hj. destruct j as [|j]; [now rewrite Nat.add_0_r|].
           rewrite Nat.add_succ_r. apply Hb. lia.
        -- rewrite Hrun, ui_misses_S. f_equal. f_equal; [lia|].
           now rewrite <- !app_assoc.
      * right. cbn [ui_missed calls ui_trace] in *. split.
        -- intros j Hj. destruct j as [|j]; [now rewrite Nat.add_0_r|].
           rewrite Nat.add_succ_r. apply Hb. lia.
        -- rewrite Hrun, ui_misses_S. f_equal. f_equal; [lia|].
           now rewrite <- !app_assoc.
Qed.


(** X20: [click_resource] and [click_resource_text] never raise: when the
    click fails they print the error and return, after that one device
    call; [click_text], which has no [try], raises the not-found error in
    the same situation. *)
Theorem resource_clicks_swallow_errors (s : ui_state) :
  (forall resource_id,
      click_resource resource_id s =
      (inl tt,
       mkUi (S (calls s))
            (ui_trace s ++
               if present (calls s) (ByResource resource_id)
               then [UClick (ByResource resource_id) true]
               else [UClick (ByResource resource_id) false;
                     UPrintError UiObjectNotFoundError]))) /\
  (forall resource_id text,
      click_resource_text resource_id text s =
      (inl tt,
       mkUi (S (calls s))
            (ui_trace s ++
               if present (calls s) (ByResourceText resource_id text)
               then [UClick (ByResourceText resource_id text) true]
               else [UClick (ByResourceText resource_id text) false;
                     UPrintError UiObjectNotFoundError]))) /\
  (forall text,
      present (calls s) (ByText text) = false ->
      click_text text s =
      (inr UiObjectNotFoundError,
       mkUi (S (calls s)) (ui_trace s ++ [UClick (ByText text) false]))).
Proof.
  split; [|split].
  - intros resource_id. unfold click_resource, u_try, device_click.
    destruct (present (calls s) (ByResource resource_id)); [reflexivity|].
    unfold u_emit. cbn [calls ui_trace not_found]. now rewrite <- app_assoc.
  - intros resource_id text. unfold click_resource_text, u_try, device_click.
    destruct (present (calls s) (ByResourceText resource_id text));
      [reflexivity|].
    unfold u_emit. cbn [calls ui_trace not_found]. now rewrite <- app_assoc.
  - intros text H. unfold click_text, device_click. now rewrite H.
Qed.

(** X21: [click_xpath] clicks only what its [exists] call has seen: when
    the element is absent it returns without a click and without an
    exception; when it is seen the click is a second device call, which
    clicks if the element is still there and raises the not-found error if
    it has gone in between. *)
Theorem click_xpath_outcomes (xpath : string) (s : ui_state) :
  (present (calls s) (ByXPath xpath) = false ->
   click_xpath xpath s =
   (inl tt, mkUi (S (calls s)) (ui_trace s ++ [UExists (ByXPath xpath)]))) /\
  (present (calls s) (ByXPath xpath) = true ->
   present (S (calls s)) (ByXPath xpath) = true ->
   click_xpath xpath s =
   (inl tt,
    mkUi (S (S (calls s)))
         (ui_trace s ++ [UExists (ByXPath xpath); UClick (ByXPath xpath) true]))) /\
  (present (calls s) (ByXPath xpath) = true ->
   present (S (calls s)) (ByXPath xpath) = false ->
   click_xpath xpath s =
   (inr XPathElementNotFoundError,
    mkUi (S (S (calls s)))
         (ui_trace s ++ [UExists (ByXPath xpath); UClick (ByXPath xpath) false]))).
Proof.
  split; [|split].
  - intros H. unfold click_xpath, u_bind, device_exists. now rewrite H.
  - intros H1 H2. unfold click_xpath, u_bind, device_exists, device_click.
    rewrite H1. cbn [calls ui_trace]. rewrite H2. now rewrite <- app_assoc.
  - intros H1 H2. unfold click_xpath, u_bind, device_exists, device_click.
    rewrite H1. cbn [calls ui_trace]. rewrite H2. now rewrite <- app_assoc.
Qed.


(** ** A bound on the dumps *)

Lemma count_dumps_app (a b : list event) :
  count_dumps (a ++ b) = (count_dumps a + count_dumps b)%nat.
Proof. unfold count_dumps. now rewrite filter_app, length_app. Qed.

Lemma dumps_weaken {A} (k k' : nat) (m : M A) :
  (k <= k')%nat -> dumps_at_most k m -> dumps_at_most k' m.
Proof.
  intros Hk H w. destruct (H w) as (evs & Htr & Hc).
  exists evs. split; [exact Htr | lia].
Qed.

Lemma dumps_ret {A} (a : A) : dumps_at_most 0 (ret a).
Proof. intros w. exists []. split; [now rewrite app_nil_r | reflexivity]. Qed.

Lemma dumps_lift {A} (r : result A) : dumps_at_most 0 (lift r).
Proof. intros w. exists []. split; [now rewrite app_nil_r | reflexivity]. Qed.

Lemma dumps_raise {A} (e : exn) : dumps_at_most 0 (@raise A e).
Proof. intros w. exists []. split; [now rewrite app_nil_r | reflexivity]. Qed.

Lemma dumps_emit (e : event) :
  e <> EDump -> dumps_at_most 0 (emit e).
Proof.
  intros He w. exists [e]. split; [reflexivity|].
  unfold count_dumps. cbn [filter]. destruct e; try reflexivity. now elim He.
Qed.

Lemma dumps_bind {A B} (k1 k2 : nat) (m : M A) (f : A -> M B) :
  dumps_at_most k1 m -> (forall a, dumps_at_most k2 (f a)) ->
  dumps_at_most (k1 + k2) (bind m f).
Proof.
  intros Hm Hf w. unfold bind. destruct (Hm w) as (e1 & H1 & C1).
  destruct (m w) as [[a|e] w1]; cbn [snd] in *.
  - destruct (Hf a w1) as (e2 & H2 & C2).
    exists (e1 ++ e2)%list. split.
    + now rewrite H2, H1, <- app_assoc.
    + rewrite count_dumps_app. lia.
  - exists e1. split; [exact H1 | lia].
Qed.

Lemma dumps_for_range {A} (body : M (option A)) (n : nat) :
  dumps_at_most 1 body -> dumps_at_most n (for_range n body).
Proof.
  intros Hb. induction n as [|n IH]; [apply dumps_ret|].
  cbn [for_range]. change (S n) with (1 + n)%nat.
  apply dumps_bind; [exact Hb|].
  intros [a|]; [|exact IH].
  apply (dumps_weaken 0); [lia | apply dumps_ret].
Qed.

Lemma dumps_for_range_still {A} (body : M (option A)) (n : nat) :
  dumps_at_most 0 body -> dumps_at_most 0 (for_range n body).
Proof.
  intros Hb. induction n as [|n IH]; [apply dumps_ret|].
  cbn [for_range]. change 0%nat with (0 + 0)%nat.
  apply dumps_bind; [exact Hb|].
  intros [a|]; [apply dumps_ret | exact IH].
Qed.

Lemma dumps_for_each {A B} (body : A -> M (option B)) (xs : list A) :
  (forall a, dumps_at_most 0 (body a)) -> dumps_at_most 0 (for_each xs body).
Proof.
  intros Hb. induction xs as [|x xs IH]; [apply dumps_ret|].
  cbn [for_each]. change 0%nat with (0 + 0)%nat.
  apply dumps_bind; [apply Hb|].
  intros [b|]; [apply dumps_ret | exact IH].
Qed.

Lemma dumps_get_coordinates_xml (element : pyval) :
  dumps_at_most 1 (get_coordinates_xml element).
Proof.
  intros w. rewrite get_coordinates_xml_run. cbn [snd].
  exists [EDump]. split; reflexivity.
Qed.

Lemma dumps_dump_xml : dumps_at_most 1 dump_xml.
Proof. intros w. exists [EDump]. split; reflexivity. Qed.

Lemma dumps_find_xml (element : pyval) (path_file : string) (index : pyval) :
  dumps_at_most 0 (find_xml element path_file index).
Proof.
  intros w. rewrite find_xml_world. exists [].
  split; [now rewrite app_nil_r | reflexivity].
Qed.

Lemma dumps_click (x y : Z) : dumps_at_most 0 (click x y).
Proof. apply dumps_emit. discriminate. Qed.

Lemma dumps_sleep_none {A} :
  dumps_at_most 0 (sleep (1 # 2) ;;; ret (@None A)).
Proof.
  change 0%nat with (0 + 0)%nat. apply dumps_bind.
  - apply dumps_emit. discriminate.
  - intros _. apply dumps_ret.
Qed.

Ltac dumps_step :=
  first [ apply dumps_ret | apply dumps_raise | apply dumps_lift
        | apply dumps_click | apply dumps_sleep_none
        | apply (dumps_bind 0 0) ].

(** X22: the polling methods bound their work, whether they return or
    raise: [click_coordinates_xml] and [scrollable] dump the hierarchy at
    most 15 times in a call, [check_xml_element] and [is_element_checked]
    at most once per attempt of their budget, and [check_text_xml] at most
    [retries] times. *)
Theorem polling_dumps_bounded :
  (forall element index, dumps_at_most 15 (click_coordinates_xml element index)) /\
  (forall element times index,
      dumps_at_most 15 (scrollable element times index)) /\
  (forall text retries,
      dumps_at_most (Z.to_nat retries) (check_text_xml text retries)) /\
  (forall kwargs n,
      as_int (dict_get kwargs "repeat" (VInt 20)) = Ok n ->
      dumps_at_most (Z.to_nat n) (check_xml_element kwargs) /\
      dumps_at_most (Z.to_nat n) (is_element_checked kwargs)).
Proof.
  split; [|split; [|split]].
  - intros element index. unfold click_coordinates_xml.
    change 15%nat with (15 + 0)%nat.
    apply dumps_bind; [|intros; apply dumps_ret].
    apply dumps_for_range. unfold click_coordinates_xml_attempt.
    change 1%nat with (1 + 0)%nat.
    apply dumps_bind; [apply dumps_get_coordinates_xml|].
    intros [|p part]; [apply dumps_sleep_none|].
    repeat (dumps_step; try intros ?).
  - intros element times index. unfold scrollable.
    change 15%nat with (15 + 0)%nat.
    apply dumps_bind; [|intros; apply dumps_ret].
    apply dumps_for_range. unfold scrollable_attempt.
    change 1%nat with (1 + 0)%nat.
    apply dumps_bind; [apply dumps_get_coordinates_xml|].
    intros [|p part]; [apply dumps_sleep_none|].
    apply (dumps_bind 0 0); [apply dumps_lift|]. intros coords.
    apply (dumps_bind 0 0); [|intros; apply dumps_ret].
    apply dumps_for_range_still.
    repeat (dumps_step; try intros ?).
  - intros text retries. unfold check_text_xml.
    rewrite <- (Nat.add_0_r (Z.to_nat retries)).
    apply dumps_bind; [|intros; apply dumps_ret].
    rewrite Nat.add_0_r.
    apply dumps_for_range. unfold check_text_xml_attempt.
    change 1%nat with (1 + 0)%nat.
    apply dumps_bind; [apply dumps_dump_xml|]. intros path.
    apply (dumps_bind 0 0).
    + intros w. unfold read_text. exists [].
      split; [|reflexivity].
      destruct (text_files w path); now rewrite app_nil_r.
    + intros content. destruct (PyStr.contains text content);
        [apply dumps_ret | apply dumps_sleep_none].
  - intros kwargs n Hn. split.
    + unfold check_xml_element. intros w.
      rewrite (bind_ok _ _ _ _ _ (range_len_ok _ _ w Hn)). revert w.
      match goal with
      | |- forall w, exists evs, trace (snd (?m w)) = _ /\ _ =>
          change (dumps_at_most (Z.to_nat n) m)
      end.
      rewrite <- (Nat.add_0_r (Z.to_nat n)).
      apply dumps_bind; [|intros; apply dumps_ret].
      rewrite Nat.add_0_r.
      apply dumps_for_range. unfold check_xml_element_attempt.
      change 1%nat with (1 + 0)%nat.
      apply dumps_bind; [apply dumps_get_coordinates_xml|].
      intros [|p part]; [apply dumps_sleep_none|].
      apply (dumps_bind 0 0); [apply dumps_lift|].
      intros [|]; [|apply dumps_sleep_none].
      apply (dumps_bind 0 0); [apply dumps_lift|]. intros i.
      apply (dumps_bind 0 0); [apply dumps_lift|]. intros xy.
      destruct xy as [|x [|y [|z xy]]]; try apply dumps_raise.
      apply (dumps_bind 0 0); [|intros; apply dumps_ret].
      destruct (truthy _); [apply dumps_click | apply dumps_ret].
    + unfold is_element_checked. intros w.
      rewrite (bind_ok _ _ _ _ _ (range_len_ok _ _ w Hn)). revert w.
      match goal with
      | |- forall w, exists evs, trace (snd (?m w)) = _ /\ _ =>
          change (dumps_at_most (Z.to_nat n) m)
      end.
      rewrite <- (Nat.add_0_r (Z.to_nat n)).
      apply dumps_bind; [|intros; apply dumps_ret].
      rewrite Nat.add_0_r.
      apply dumps_for_range. unfold is_element_checked_attempt.
      change 1%nat with (1 + 0)%nat.
      apply dumps_bind; [apply dumps_dump_xml|]. intros path.
      apply (dumps_bind 0 0).
      * apply dumps_for_each. intros [name value].
        unfold is_element_checked_item.
        apply (dumps_bind 0 0); [apply dumps_find_xml|]. intros found.
        destruct (fst found); apply dumps_ret.
      * intros [name|]; [apply dumps_ret | apply dumps_sleep_none].
Qed.

End ADB.

(** ** The statements at work on the example device *)



(** Witness of [xpath_exception_paths]: an unbalanced bracket. *)
Lemma xpath_exception_paths_witness :
  find_xml demo_xpath (VStr "//node[")
    (resource_path demo_dir "window_dump_0.xml") (VInt 0)
    (dumped Posix demo_dir demo_world) =
    (Ok ([], None), dumped Posix demo_dir demo_world) /\
  get_coordinates_xml Posix demo_dir demo_xpath (VStr "//node[") demo_world =
    (Raise XPathEvalError, dumped Posix demo_dir demo_world).
Proof.
  apply (xpath_exception_paths Posix demo_dir demo_xpath (VStr "//node[")
           (VInt 0) demo_world XPathEvalError).
  reflexivity.
Defined.

(** Witness of [index_unguarded]: one match and index 1; one match, found at
    the third attempt, and index 3. *)
Lemma index_unguarded_witness :
  find_xml demo_xpath (VStr "//node[@text='OK']")
    (resource_path demo_dir "window_dump_0.xml") (VInt 1)
    (dumped Posix demo_dir dialog_world) =
    (Raise IndexError, dumped Posix demo_dir dialog_world) /\
  click_coordinates_xml Posix demo_dir demo_xpath "//node[@text='OK']" 3
    demo_world =
    (Raise IndexError,
     dumped Posix demo_dir (Nat.iter 2 (missed Posix demo_dir) demo_world)).
Proof.
  split.
  - destruct (index_unguarded Posix demo_dir demo_xpath
                (dumped Posix demo_dir dialog_world)) as [H _].
    apply (H (VStr "//node[@text='OK']") (VInt 1) _ dialog_xml [ok_node]
             [[10; 20]] 1).
    + reflexivity.
    + reflexivity.
    + discriminate.
    + reflexivity.
    + reflexivity.
    + vm_compute. discriminate.
  - destruct (index_unguarded Posix demo_dir demo_xpath demo_world) as [_ H].
    apply (H "//node[@text='OK']" 3 2%nat [[10; 20]]).
    + lia.
    + intros j Hj. destruct j as [|[|j]]; [reflexivity | reflexivity | lia].
    + reflexivity.
    + discriminate.
    + left. vm_compute. discriminate.
Defined.

(** Against C10 as stated: the expression matches an element, the index is
    beyond the matches, and the exception is [KeyError]. *)
Lemma unbounded_match_raises_key_error :
  xpath_on demo_xpath dialog_xml (VStr "//hierarchy") = Ok (XItems [root_node]) /\
  fst (find_xml demo_xpath (VStr "//hierarchy")
         (resource_path demo_dir "window_dump_0.xml") (VInt 5)
         (dumped Posix demo_dir dialog_world)) = Raise KeyError /\
  fst (find_xml demo_xpath (VStr "//hierarchy")
         (resource_path demo_dir "window_dump_0.xml") (VInt 5)
         (dumped Posix demo_dir dialog_world)) <> Raise IndexError.
Proof.
  split; [|split].
  - reflexivity.
  - vm_compute. reflexivity.
  - vm_compute. discriminate.
Qed.


(** Witness of [dump_reload_roundtrip]: the dialog, a text it holds and one
    it does not. *)
Lemma dump_reload_roundtrip_witness :
  (exists w',
      check_text_xml Posix demo_dir "Cancel" 3 dialog_world = (Ok true, w') /\
      trace w' = [EDump]) /\
  (exists w',
      check_text_xml Posix demo_dir "Missing" 3 dialog_world = (Ok false, w') /\
      trace w' = misses 3).
Proof.
  split.
  - apply (dump_reload_roundtrip Posix demo_dir dialog_world dialog_xml
             "Cancel" 3); [reflexivity | lia | reflexivity |].
    apply contains_iff. reflexivity.
  - apply (dump_reload_roundtrip Posix demo_dir dialog_world dialog_xml
             "Missing" 3); [reflexivity | lia | reflexivity |].
    intros H. apply contains_iff in H. discriminate H.
Defined.

(** Against C7 as stated: a carriage return of the content comes back as a
    line feed, so a substring that holds it is not found; and with a budget
    of zero nothing is found. *)
Lemma carriage_return_not_found :
  PyStr.contains (String CR "") (hierarchy cr_world 0) = true /\
  fst (check_text_xml Posix demo_dir (String CR "") 3 cr_world) = Ok false /\
  PyStr.contains "Cancel" (hierarchy dialog_world 0) = true /\
  fst (check_text_xml Posix demo_dir "Cancel" 0 dialog_world) = Ok false.
Proof. repeat split; vm_compute; reflexivity. Qed.


(** Witness of [check_xml_element_negative_index]: one match and index -2. *)
Lemma check_xml_element_negative_index_witness :
  check_xml_element Posix demo_dir demo_xpath
    [("element", VStr "//node[@text='OK']"); ("index", VInt (-2))]
    dialog_world =
  (Raise IndexError, dumped Posix demo_dir dialog_world).
Proof.
  apply (check_xml_element_negative_index Posix demo_dir demo_xpath
           [("element", VStr "//node[@text='OK']"); ("index", VInt (-2))]
           dialog_world 20 (-2) 0%nat [[10; 20]]).
  - reflexivity.
  - reflexivity.
  - vm_compute. lia.
  - intros j Hj. lia.
  - reflexivity.
  - discriminate.
  - reflexivity.
Defined.

(** Witness of [locate_image]: the reference at the left edge of the
    screenshot, and a threshold no score reaches. *)
Lemma locate_image_witness :
  fst (get_coordinates_image demo_dir demo_match "ok.png" (9 # 10) image_world) =
    Ok (VTuple [1; 0]) /\
  fst (get_coordinates_image demo_dir demo_match "ok.png" 2 image_world) =
    Ok (VBool false).
Proof.
  split.
  - destruct (locate_image demo_dir demo_match "ok.png" (9 # 10) image_world
                demo_reference [[1; -1; 1]]%Q eq_refl eq_refl) as [H _].
    apply (H 0%nat 0%nat). split.
    + exists 1%Q. split; [reflexivity | discriminate].
    + intros y' x' s' [He|[_ He]]; inversion He.
  - destruct (locate_image demo_dir demo_match "ok.png" 2 image_world
                demo_reference [[1; -1; 1]]%Q eq_refl eq_refl) as [_ H].
    apply H. intros y x s Hs Hle.
    destruct y as [|y]; [|now destruct y].
    destruct x as [|[|[|x]]]; cbn in Hs;
      try (injection Hs as <-; now apply Hle);
      now destruct x.
Defined.

(** Against C3 as stated: the reference stands at column 2 of the first
    screenshot, where it scores 1, and the threshold 9/10 is below that
    score, but it also stands at column 0 and that centre is the answer;
    it stands at column 1 only of the second screenshot, the threshold -1 is
    below its score there, and the answer is the centre of column 0. *)
Lemma first_hit_not_pasted_position :
  (demo_match demo_screenshot demo_reference = Ok [[1; -1; 1]]%Q /\
   entry [[1; -1; 1]]%Q 0 2 = Some 1%Q /\ (9 # 10 <= 1)%Q /\
   fst (get_coordinates_image demo_dir demo_match "ok.png" (9 # 10) image_world) =
     Ok (VTuple [1; 0]) /\
   fst (get_coordinates_image demo_dir demo_match "ok.png" (9 # 10) image_world) <>
     Ok (VTuple [2 + shape1 demo_reference / 2; 0 + shape0 demo_reference / 2])) /\
  (demo_match pasted_screenshot demo_reference = Ok [[-1; 1]]%Q /\
   entry [[-1; 1]]%Q 0 1 = Some 1%Q /\ (-1 <= 1)%Q /\
   fst (get_coordinates_image demo_dir demo_match "ok.png" (-1) pasted_world) =
     Ok (VTuple [1; 0]) /\
   fst (get_coordinates_image demo_dir demo_match "ok.png" (-1) pasted_world) <>
     Ok (VTuple [1 + shape1 demo_reference / 2; 0 + shape0 demo_reference / 2])).
Proof.
  split.
  - split; [reflexivity|]. split; [reflexivity|]. split; [discriminate|].
    split; vm_compute; [reflexivity | discriminate].
  - split; [reflexivity|]. split; [reflexivity|]. split; [discriminate|].
    split; vm_compute; [reflexivity | discriminate].
Qed.

(** Witness of [click_image_result]: the image is on the screen, the method
    taps its centre and returns [None]. *)
Lemma click_image_result_witness :
  click_coordinates_image demo_dir demo_match "ok.png" image_world =
    (Ok VNone,
     snd (click 1 0 (snd (screen_capture demo_dir image_world)))) /\
  fst (click_coordinates_image demo_dir demo_match "ok.png" image_world) <>
    Ok (VBool true).
Proof.
  destruct (click_image_result demo_dir demo_match "ok.png" image_world)
    as (Hnot & _ & Hhit).
  split; [|exact Hnot].
  apply (Hhit 1 0 (snd (screen_capture demo_dir image_world))).
  reflexivity.
Defined.

(** ** The further properties at work on the example device *)

(** Witness of [scrollable_taps]: three taps on the button once the dialog
    is up, no tap for zero times, and an element that never shows. *)
Lemma scrollable_taps_witness :
  (exists w',
      scrollable Posix demo_dir demo_xpath "//node[@text='OK']" 3 0 demo_world =
        (Ok true, w') /\
      trace w' = [EDump; ESleep (1 # 2); EDump; ESleep (1 # 2); EDump;
                  EShell "input tap 10 20"; EShell "input tap 10 20";
                  EShell "input tap 10 20"]) /\
  (exists w',
      scrollable Posix demo_dir demo_xpath "//node[@text='OK']" 0 0 demo_world =
        (Ok true, w') /\
      trace w' = [EDump; ESleep (1 # 2); EDump; ESleep (1 # 2); EDump]) /\
  (exists w',
      scrollable Posix demo_dir demo_xpath "//node[@text='Nope']" 1 0 demo_world =
        (Ok false, w') /\
      trace w' = misses 15).
Proof.
  split; [|split].
  - destruct (scrollable_taps Posix demo_dir demo_xpath demo_world
                "//node[@text='OK']" 3 0) as (H & _ & _).
    apply (H 2%nat [[10; 20]] 10 20).
    + lia.
    + intros j Hj. destruct j as [|[|j]]; [reflexivity | reflexivity | lia].
    + reflexivity.
    + reflexivity.
  - destruct (scrollable_taps Posix demo_dir demo_xpath demo_world
                "//node[@text='OK']" 0 0) as (_ & H & _).
    apply (H 2%nat [[10; 20]] [10; 20]).
    + lia.
    + intros j Hj. destruct j as [|[|j]]; [reflexivity | reflexivity | lia].
    + reflexivity.
    + reflexivity.
    + lia.
  - destruct (scrollable_taps Posix demo_dir demo_xpath demo_world
                "//node[@text='Nope']" 1 0) as (_ & _ & H).
    apply H. intros j Hj. reflexivity.
Defined.

(** Witness of [empty_budget_answers_at_once]: the dialog is up and the
    budget is zero. *)
Lemma empty_budget_witness :
  check_text_xml Posix demo_dir "OK" 0 dialog_world = (Ok false, dialog_world) /\
  is_element_checked Posix demo_dir demo_xpath
    [("ok", VStr "//node[@text='OK']"); ("repeat", VInt 0)] dialog_world =
    (Ok "notElement", dialog_world) /\
  check_xml_element Posix demo_dir demo_xpath
    [("element", VStr "//node[@text='OK']"); ("repeat", VInt (-1))] dialog_world =
    (Ok false, dialog_world).
Proof.
  destruct (empty_budget_answers_at_once Posix demo_dir demo_xpath dialog_world)
    as [H1 H2].
  split; [|split].
  - apply H1. lia.
  - apply (H2 [("ok", VStr "//node[@text='OK']"); ("repeat", VInt 0)] 0);
      [reflexivity | lia].
  - apply (H2 [("element", VStr "//node[@text='OK']"); ("repeat", VInt (-1))]
              (-1)); [reflexivity | lia].
Defined.



(** Witness of [coordinates_follow_matches]: the two buttons. *)
Lemma coordinates_follow_matches_witness :
  Forall2 tuple_of [ok_node; cancel_node] [[10; 20]; [120; 20]].
Proof.
  destruct (coordinates_follow_matches Posix demo_dir demo_xpath
              [ok_node; cancel_node]) as [H _].
  apply (H (VStr "//node[@text='OK' or @text='Cancel']") dialog_world).
  - reflexivity.
  - vm_compute. reflexivity.
Defined.

(** Witness of [second_corner_ignored]: bounds cut short after ["[7,8]["]. *)
Lemma second_corner_ignored_witness :
  get_coordinates_xml Posix demo_dir cut_xpath (VStr "//node") demo_world =
    (Ok [[7; 8]], dumped Posix demo_dir demo_world).
Proof.
  destruct (second_corner_ignored Posix demo_dir cut_xpath [cut_node] [(7, 8)])
    as [H _].
  - constructor; [|constructor].
    exists [("text", "Cut"); ("bounds", "[7,8][90")], "90". split; reflexivity.
  - apply H. reflexivity.
Defined.

(** Witness of [match_centre_inside]: the reference at the left edge. *)
Lemma match_centre_inside_witness :
  0 <= 1 < shape1 demo_screenshot /\ 0 <= 0 < shape0 demo_screenshot.
Proof.
  apply (match_centre_inside demo_dir demo_match "ok.png" (9 # 10) image_world
           demo_reference [[1; -1; 1]]%Q 1 0).
  - reflexivity.
  - reflexivity.
  - vm_compute. discriminate.
  - vm_compute. discriminate.
  - vm_compute. discriminate.
  - constructor; [vm_compute; discriminate | constructor].
  - vm_compute. reflexivity.
Defined.

(** Witness of [lower_threshold_keeps_match]: from 1 down to 9/10. *)
Lemma lower_threshold_keeps_match_witness :
  exists x2 y2,
    fst (get_coordinates_image demo_dir demo_match "ok.png" (9 # 10) image_world) =
      Ok (VTuple [x2; y2]) /\
    (y2 < 0 \/ (y2 = 0 /\ x2 <= 1)).
Proof.
  apply (lower_threshold_keeps_match demo_dir demo_match "ok.png" 1 (9 # 10)
           image_world 1 0).
  - discriminate.
  - vm_compute. reflexivity.
Defined.

(** Witness of [unreadable_reference_raises]: no such file. *)
Lemma unreadable_reference_raises_witness :
  click_coordinates_image demo_dir demo_match "missing.png" image_world =
    (Raise Cv2Error, snd (screen_capture demo_dir image_world)).
Proof.
  apply (unreadable_reference_raises demo_dir demo_match "missing.png" 1
           image_world).
  reflexivity.
Defined.

(** Witness of [executor_command_words]: a link opened in a browser, and
    the grants of a package. *)
Lemma executor_command_words_witness :
  (exists w' command,
      open_link "https://example.org" (Some "com.android.chrome") demo_world =
        (Ok tt, w') /\
      trace w' = [EShell command] /\
      PyStr.split " " command =
        ["am"; "start"; "-a"; "android.intent.action.VIEW"; "-d";
         "https://example.org"; "com.android.chrome"]) /\
  (exists w' commands,
      grant_permissions "com.app" demo_world = (Ok tt, w') /\
      trace w' = map EShell commands /\
      Forall2 (fun command permission =>
                 PyStr.split " " command = ["pm"; "grant"; "com.app"; permission])
              commands permissions).
Proof.
  destruct (executor_command_words demo_world) as [H1 H2].
  split.
  - apply (H1 "https://example.org" (Some "com.android.chrome"));
      reflexivity.
  - apply (H2 "com.app"). reflexivity.
Defined.


(** Witness of [check_xml_element_polls]: the second of two matches, with
    the tap. *)
Lemma check_xml_element_polls_witness :
  exists w',
    check_xml_element Posix demo_dir demo_xpath
      [("element", VStr "//node[@text='OK' or @text='Cancel']");
       ("index", VInt (-1))] demo_world = (Ok true, w') /\
    trace w' = [EDump; ESleep (1 # 2); EDump; ESleep (1 # 2); EDump;
                EShell "input tap 120 20"].
Proof.
  destruct (check_xml_element_polls Posix demo_dir demo_xpath
              [("element", VStr "//node[@text='OK' or @text='Cancel']");
               ("index", VInt (-1))] demo_world 20 (-1) eq_refl eq_refl)
    as [H _].
  apply (H 2%nat [[10; 20]; [120; 20]] 120 20).
  - vm_compute. lia.
  - intros j Hj. exists [].
    destruct j as [|[|j]]; [| |lia]; (split; [reflexivity | now left]).
  - reflexivity.
  - reflexivity.
Defined.

(** Witness of [resource_clicks_swallow_errors]: a text that is not there. *)
Lemma resource_clicks_swallow_errors_witness :
  click_text demo_present "Nope" ui_start =
    (inr UiObjectNotFoundError, mkUi 1 [UClick (ByText "Nope") false]) /\
  click_resource demo_present "com.app:id/nope" ui_start =
    (inl tt, mkUi 1 [UClick (ByResource "com.app:id/nope") false;
                     UPrintError UiObjectNotFoundError]).
Proof.
  destruct (resource_clicks_swallow_errors demo_present ui_start)
    as (H1 & _ & H3).
  split.
  - apply H3. reflexivity.
  - apply H1.
Defined.

(** Witness of [click_xpath_outcomes]: an element that is never there, one
    that stays, and one that goes between the two calls. *)
Lemma click_xpath_outcomes_witness :
  click_xpath demo_present "//nope" ui_start =
    (inl tt, mkUi 1 [UExists (ByXPath "//nope")]) /\
  click_xpath demo_present "//ok" ui_start =
    (inl tt, mkUi 2 [UExists (ByXPath "//ok"); UClick (ByXPath "//ok") true]) /\
  click_xpath demo_present "//flash" ui_start =
    (inr XPathElementNotFoundError,
     mkUi 2 [UExists (ByXPath "//flash"); UClick (ByXPath "//flash") false]).
Proof.
  split; [|split].
  - destruct (click_xpath_outcomes demo_present "//nope" ui_start) as (H & _ & _).
    apply H. reflexivity.
  - destruct (click_xpath_outcomes demo_present "//ok" ui_start) as (_ & H & _).
    apply H; reflexivity.
  - destruct (click_xpath_outcomes demo_present "//flash" ui_start) as (_ & _ & H).
    apply H; reflexivity.
Defined.

(** Witness of [polling_dumps_bounded]: a budget of three attempts. *)
Lemma polling_dumps_bounded_witness :
  dumps_at_most 3
    (check_xml_element Posix demo_dir demo_xpath
       [("element", VStr "//node[@text='Nope']"); ("repeat", VInt 3)]) /\
  dumps_at_most 3
    (is_element_checked Posix demo_dir demo_xpath
       [("nope", VStr "//node[@text='Nope']"); ("repeat", VInt 3)]).
Proof.
  destruct (polling_dumps_bounded Posix demo_dir demo_xpath) as (_ & _ & _ & H).
  split.
  - apply (H [("element", VStr "//node[@text='Nope']"); ("repeat", VInt 3)] 3).
    reflexivity.
  - apply (H [("nope", VStr "//node[@text='Nope']"); ("repeat", VInt 3)] 3).
    reflexivity.
Defined.
